(** * EcoFinds marketplace ([src/app.py]): a shallow embedding of the
    request handlers over the SQLite tables, and their properties.

    The relational store is a record of tables, each a list of rows in
    insertion (rowid) order.  Every handler is a function from the store and
    the request inputs to an [outcome] and the store after the request.  A
    handler that flashes an error and redirects does not commit, so it returns
    the store it was given; a Python exception escaping a handler makes Flask
    answer 500 and the session is rolled back, so it also returns the store
    it was given.

    Python [float]s are IEEE binary64 values, modelled by Rocq's primitive
    floats: [float(str)] rounds to nearest, and the arithmetic of [cart] and
    [checkout] is the same sequence of rounded operations as the source.
    A [db.Float] column holds a binary64 REAL: SQLite stores NaN as NULL and
    reads an integral REAL back as the same value (so [-0.0] as [0.0]).  A
    [db.Integer] column holds a signed 64-bit integer; binding a larger
    Python [int] raises [OverflowError].  Strings are Rocq [string]s of
    ASCII characters; [str.strip] and [str.lower] are modelled on ASCII. *)

From Stdlib Require Import List Bool Arith ZArith Lia.
From Stdlib Require Import Strings.String Strings.Ascii.
From Stdlib Require Import Sorting.Sorted Sorting.Permutation.
From Stdlib Require Import Floats.
Import ListNotations.
Open Scope bool_scope.
#[local] Set Warnings "-inexact-float".

(** ** Python string helpers *)

Definition ascii_code (c : ascii) : nat := nat_of_ascii c.

(** [str.isspace] on ASCII: \t \n \v \f \r, \x1c-\x1f and the space. *)
Definition is_space (c : ascii) : bool :=
  let n := ascii_code c in
  ((9 <=? n) && (n <=? 13)) || ((28 <=? n) && (n <=? 32)).

Fixpoint lstrip (s : string) : string :=
  match s with
  | EmptyString => EmptyString
  | String c s' => if is_space c then lstrip s' else s
  end.

Fixpoint rstrip (s : string) : string :=
  match s with
  | EmptyString => EmptyString
  | String c s' =>
      let r := rstrip s' in
      if is_space c && String.eqb r EmptyString then EmptyString
      else String c r
  end.

(** [str.strip()] *)
Definition strip (s : string) : string := rstrip (lstrip s).

Definition ascii_lower (c : ascii) : ascii :=
  let n := ascii_code c in
  if (65 <=? n) && (n <=? 90) then ascii_of_nat (n + 32) else c.

(** [str.lower()] *)
Fixpoint lower (s : string) : string :=
  match s with
  | EmptyString => EmptyString
  | String c s' => String (ascii_lower c) (lower s')
  end.

Definition is_digit (c : ascii) : bool :=
  let n := ascii_code c in (48 <=? n) && (n <=? 57).

Definition digit_val (c : ascii) : Z := Z.of_nat (ascii_code c - 48).

(** ** Python's [int(str)] and [float(str)] parsers

    Both strip surrounding whitespace, take an optional sign, and read runs
    of decimal digits in which single underscores may separate digits.
    [py_float] reads the decimal grammar (integer part, fraction, exponent)
    and the spellings [inf], [infinity] and [nan] in any case.  (CPython
    also refuses [int()] of a string of more than 4300 digits; that limit is
    not part of [py_int].) *)

Fixpoint take_run (l : list ascii) : list ascii * list ascii :=
  match l with
  | [] => ([], [])
  | c :: l' =>
      if is_digit c || Ascii.eqb c "_"%char then
        let (r, rest) := take_run l' in (c :: r, rest)
      else ([], l)
  end.

(** A run is well formed when it starts and ends with a digit and has no
    two underscores in a row. *)
Fixpoint run_ok (prev_digit : bool) (l : list ascii) : bool :=
  match l with
  | [] => prev_digit
  | c :: l' => if is_digit c then run_ok true l' else prev_digit && run_ok false l'
  end.

Definition valid_run (r : list ascii) : bool := run_ok false r.

Definition run_value (r : list ascii) : Z :=
  fold_left (fun acc c => if is_digit c then (acc * 10 + digit_val c)%Z else acc) r 0%Z.

Definition run_digits (r : list ascii) : Z := Z.of_nat (List.length (List.filter is_digit r)).

Definition take_sign (l : list ascii) : bool * list ascii :=
  match l with
  | c :: l' =>
      if Ascii.eqb c "-"%char then (true, l')
      else if Ascii.eqb c "+"%char then (false, l') else (false, l)
  | [] => (false, l)
  end.

Definition is_nil {A} (l : list A) : bool := match l with [] => true | _ => false end.

Definition py_int (s : string) : option Z :=
  let (neg, l1) := take_sign (list_ascii_of_string (strip s)) in
  let (r, rest) := take_run l1 in
  if valid_run r && is_nil rest then
    Some (if neg then (- run_value r)%Z else run_value r)
  else None.

Definition opt_run_ok (r : list ascii) : bool := is_nil r || valid_run r.

Definition take_exponent (l : list ascii) : option Z :=
  match l with
  | [] => Some 0%Z
  | c :: l' =>
      if Ascii.eqb c "e"%char || Ascii.eqb c "E"%char then
        let (neg, l2) := take_sign l' in
        let (r, rest) := take_run l2 in
        if valid_run r && is_nil rest then
          Some (if neg then (- run_value r)%Z else run_value r)
        else None
      else None
  end.

(** The binary64 value nearest to [m * 10 ^ e10] (ties to even), with
    the sign [neg]: the correct rounding CPython's [float()] performs.  A
    positive exponent multiplies the mantissa exactly; a negative one is a
    correctly rounded division of [m] by [10 ^ k = 5 ^ k * 2 ^ k], done as
    [SpecFloat]'s division does it.  Overflow gives an infinity and
    underflow a signed zero. *)
Definition round_decimal (neg : bool) (m e10 : Z) : float :=
  match m with
  | Zpos pm =>
      if (0 <=? e10)%Z then
        SF2Prim (binary_round prec emax neg (pm * Z.to_pos (5 ^ e10)) e10)
      else
        let '(mz, ez, lz) := SFdiv_core_binary prec emax (Zpos pm) 0 (5 ^ (- e10)) (- e10) in
        SF2Prim (binary_round_aux prec emax neg mz ez lz)
  | _ => if neg then neg_zero else zero
  end.

(** The special values, after the sign: [inf], [infinity] and [nan],
    compared case-insensitively. *)
Definition special_float (neg : bool) (l : list ascii) : option float :=
  let w := string_of_list_ascii (map ascii_lower l) in
  if String.eqb w "inf" || String.eqb w "infinity" then
    Some (if neg then neg_infinity else infinity)
  else if String.eqb w "nan" then Some nan
  else None.

Definition py_float (s : string) : option float :=
  let (neg, l1) := take_sign (list_ascii_of_string (strip s)) in
  match special_float neg l1 with
  | Some x => Some x
  | None =>
      let (ri, l2) := take_run l1 in
      let '(rf, l3) :=
        match l2 with
        | c :: l2' => if Ascii.eqb c "."%char then take_run l2' else ([], l2)
        | [] => ([], l2)
        end in
      if opt_run_ok ri && opt_run_ok rf && negb (is_nil ri && is_nil rf) then
        match take_exponent l3 with
        | Some e => Some (round_decimal neg (run_value (ri ++ rf)) (e - run_digits rf))
        | None => None
        end
      else None
  end.

(** [float(n)] for a Python [int] (also the conversion in [float * int]):
    the nearest binary64 value. *)
Definition z_to_float (z : Z) : float := SF2Prim (binary_normalize prec emax z 0 false).

(** ** Constants *)

Definition CATEGORIES : list string :=
  ["Clothing"; "Electronics"; "Home & Kitchen"; "Books";
   "Furniture"; "Sports"; "Toys"; "Other"]%string.

Definition PLACEHOLDER_IMG : string := "https://placehold.co/600x400?text=EcoFinds".

Definition in_categories (c : string) : bool :=
  existsb (fun c' => String.eqb c c') CATEGORIES.

(** ** Models (one table each) *)

Module User.
Record t := mk { id : nat; email : string; password_hash : string; username : string }.
End User.

Module Product.
Record t := mk {
  id : nat; title : string; description : string; category : string;
  price : float; image_url : option string; created_at : nat; seller_id : nat }.

(** [Product.image]: the stripped URL when it is set and non-empty. *)
Definition image (p : t) : string :=
  match image_url p with
  | Some u => if String.eqb u EmptyString then PLACEHOLDER_IMG else strip u
  | None => PLACEHOLDER_IMG
  end.
End Product.

Module CartItem.
Record t := mk { id : nat; quantity : Z; user_id : nat; product_id : nat }.
End CartItem.

(** [total_amount] is a nullable column: [None] is SQL [NULL]. *)
Module Order.
Record t := mk { id : nat; created_at : nat; total_amount : option float; user_id : nat }.
End Order.

Module OrderItem.
Record t := mk {
  id : nat; order_id : nat; product_title : string; product_price : float;
  quantity : Z; product_category : string; product_image_url : option string }.
End OrderItem.

(** The database: the rows of each table in rowid order, and the clock
    read by [datetime.utcnow] for the [created_at] defaults. *)
Record store := mkStore {
  users : list User.t;
  products : list Product.t;
  cart_items : list CartItem.t;
  orders : list Order.t;
  order_items : list OrderItem.t;
  clock : nat }.

Definition set_users (st : store) (x : list User.t) : store :=
  mkStore x (products st) (cart_items st) (orders st) (order_items st) (clock st).
Definition set_products (st : store) (x : list Product.t) : store :=
  mkStore (users st) x (cart_items st) (orders st) (order_items st) (clock st).
Definition set_cart_items (st : store) (x : list CartItem.t) : store :=
  mkStore (users st) (products st) x (orders st) (order_items st) (clock st).
Definition tick (st : store) : store :=
  mkStore (users st) (products st) (cart_items st) (orders st) (order_items st) (S (clock st)).

(** SQLite's rowid for an [INTEGER PRIMARY KEY]: one more than the largest. *)
Definition fresh_id (ids : list nat) : nat := S (list_max ids).

(** The value a [db.Float] column reads back after a Python float [x] is
    committed: SQLite keeps an integral REAL of a REAL-affinity column as an
    integer, which turns [-0.0] into [0.0]; every other non-NaN value comes
    back unchanged. *)
Definition db_real (x : float) : float := if (x =? zero)%float then zero else x.

(** A nullable [db.Float] column: NaN is stored as [NULL]. *)
Definition stored_real (x : float) : option float :=
  if is_nan x then None else Some (db_real x).

(** The range of SQLite's INTEGER (signed 64-bit). *)
Definition int64_ok (z : Z) : bool := (- 2 ^ 63 <=? z)%Z && (z <? 2 ^ 63)%Z.

(** [Product.query.get(pid)] *)
Definition find_product (st : store) (pid : nat) : option Product.t :=
  find (fun p => Product.id p =? pid) (products st).

(** [CartItem.query.get(item_id)] *)
Definition find_cart_item (st : store) (cid : nat) : option CartItem.t :=
  find (fun c => CartItem.id c =? cid) (cart_items st).

(** ** Results of a request *)

(** The error taxonomy: each flashed error message belongs to one kind;
    [abort(404)] of [get_or_404] is [NotFoundError]. *)
Inductive error := ValidationError | AuthError | AuthorizationError | NotFoundError | ConflictError.

(** Python exceptions that escape a handler (HTTP 500); [IntegrityError]
    and [OverflowError] are raised by the commit. *)
Inductive pyexc := ValueError | AttributeError | IntegrityError | OverflowError.

Inductive outcome :=
| Ok
| Fail (e : error) (flash : string)
| Raise (x : pyexc).

Definition not_found : outcome := Fail NotFoundError "404 Not Found".

(** ** [index]: the product listing *)

(** SQL [LIKE] without an [ESCAPE] clause: [%] matches any sequence, [_]
    any single character, every other character itself. *)
Fixpoint like (p s : list ascii) : bool :=
  match p with
  | [] => is_nil s
  | c :: p' =>
      if Ascii.eqb c "%"%char then
        (fix any (s : list ascii) : bool :=
           like p' s || match s with [] => false | _ :: s' => any s' end) s
      else
        match s with
        | [] => false
        | d :: s' => (Ascii.eqb c "_"%char || Ascii.eqb c d) && like p' s'
        end
  end.

(** [column.ilike(pattern)], rendered by SQLAlchemy on SQLite as
    [lower(column) LIKE lower(pattern)]. *)
Definition ilike (value pattern : string) : bool :=
  like (list_ascii_of_string (lower pattern)) (list_ascii_of_string (lower value)).

(** [ORDER BY created_at DESC] *)
Fixpoint insert_desc (p : Product.t) (l : list Product.t) : list Product.t :=
  match l with
  | [] => [p]
  | x :: l' =>
      if Product.created_at x <? Product.created_at p then p :: l
      else x :: insert_desc p l'
  end.

Definition order_by_created_desc (l : list Product.t) : list Product.t :=
  fold_right insert_desc [] l.

Definition index (st : store) (q_arg cat_arg : string) : list Product.t :=
  let q := strip q_arg in
  let cat := strip cat_arg in
  let query := order_by_created_desc (products st) in
  let query :=
    if negb (String.eqb q EmptyString)
    then filter (fun p => ilike (Product.title p) (String.append "%" (String.append q "%"))) query
    else query in
  let query :=
    if negb (String.eqb cat EmptyString) && in_categories cat
    then filter (fun p => String.eqb (Product.category p) cat) query
    else query in
  query.

(** ** Auth

    [generate_password_hash] draws a random salt; the salt is an input of
    [register] here.  [check_password_hash] is a parameter of [login]. *)

Definition find_user_by_email (st : store) (e : string) : option User.t :=
  find (fun u => String.eqb (User.email u) e) (users st).

Definition register (gen_hash : string -> string -> string) (st : store)
    (email_arg password_arg username_arg salt : string) : outcome * store * option nat :=
  let email := lower (strip email_arg) in
  let password := strip password_arg in
  let username := strip username_arg in
  if String.eqb email "" || String.eqb password "" || String.eqb username "" then
    (Fail ValidationError "Please fill all fields.", st, None)
  else
    match find_user_by_email st email with
    | Some _ => (Fail ConflictError "Email already registered.", st, None)
    | None =>
        let uid := fresh_id (map User.id (users st)) in
        let user := User.mk uid email (gen_hash salt password) username in
        (Ok, set_users st (users st ++ [user]), Some uid)
    end.

(** The second component is the user put in the session by [login_user]. *)
Definition login (check_hash : string -> string -> bool) (st : store)
    (email_arg password_arg : string) : outcome * option nat :=
  let email := lower (strip email_arg) in
  let password := strip password_arg in
  match find_user_by_email st email with
  | Some user =>
      if check_hash (User.password_hash user) password then (Ok, Some (User.id user))
      else (Fail AuthError "Invalid credentials.", None)
  | None => (Fail AuthError "Invalid credentials.", None)
  end.

(** ** Product CRUD *)

(** The form fields of [/products/new] and [/products/<pid>/edit]; a
    missing field reads as [""]. *)
Record product_form := mkForm {
  f_title : string; f_description : string; f_category : string;
  f_price : string; f_image_url : string }.

Definition form_invalid (f : product_form) : bool :=
  String.eqb (strip (f_title f)) "" || String.eqb (strip (f_description f)) ""
  || negb (in_categories (strip (f_category f))) || String.eqb (strip (f_price f)) "".

Definition form_image (f : product_form) : string :=
  let u := strip (f_image_url f) in if String.eqb u "" then PLACEHOLDER_IMG else u.

(** A NaN price is bound as [NULL], which the [NOT NULL] constraint of
    [Product.price] refuses at the commit: [IntegrityError]. *)
Definition add_product (st : store) (uid : nat) (f : product_form) : outcome * store :=
  if form_invalid f then (Fail ValidationError "Please complete all fields correctly.", st)
  else
    match py_float (strip (f_price f)) with
    | None => (Fail ValidationError "Price must be a number.", st)
    | Some v =>
        if is_nan v then (Raise IntegrityError, st)
        else
          let pid := fresh_id (map Product.id (products st)) in
          let p := Product.mk pid (strip (f_title f)) (strip (f_description f))
                     (strip (f_category f)) (db_real v) (Some (form_image f)) (clock st) uid in
          (Ok, tick (set_products st (products st ++ [p])))
    end.

Definition edit_product (st : store) (uid pid : nat) (f : product_form) : outcome * store :=
  match find_product st pid with
  | None => (not_found, st)
  | Some product =>
      if negb (Product.seller_id product =? uid) then (Fail AuthorizationError "Not authorized.", st)
      else if form_invalid f then (Fail ValidationError "Please complete all fields correctly.", st)
      else
        match py_float (strip (f_price f)) with
        | None => (Fail ValidationError "Price must be a number.", st)
        | Some v =>
            if is_nan v then (Raise IntegrityError, st)
            else
              let upd (p : Product.t) :=
                if Product.id p =? pid then
                  Product.mk (Product.id p) (strip (f_title f)) (strip (f_description f))
                    (strip (f_category f)) (db_real v) (Some (form_image f))
                    (Product.created_at p) (Product.seller_id p)
                else p in
              (Ok, set_products st (map upd (products st)))
        end
  end.

(** [db.session.delete(product)]: only the product row is deleted.  No
    relationship from [Product] to [CartItem] is declared, and SQLite does
    not enforce foreign keys unless [PRAGMA foreign_keys] is set. *)
Definition delete_product (st : store) (uid pid : nat) : outcome * store :=
  match find_product st pid with
  | None => (not_found, st)
  | Some product =>
      if negb (Product.seller_id product =? uid) then (Fail AuthorizationError "Not authorized.", st)
      else (Ok, set_products st (filter (fun p => negb (Product.id p =? pid)) (products st)))
  end.

(** ** Cart *)

(** [int(request.form.get("quantity", 1))]: a missing field is the
    integer [1]; a present one goes through [int(str)], whose [ValueError]
    is not caught. *)
Definition form_int (v : option string) : option Z :=
  match v with
  | None => Some 1%Z
  | Some s => py_int s
  end.

Definition bump (cid : nat) (d : Z) (c : CartItem.t) : CartItem.t :=
  if CartItem.id c =? cid
  then CartItem.mk (CartItem.id c) (CartItem.quantity c + d) (CartItem.user_id c) (CartItem.product_id c)
  else c.

Definition set_quantity (cid : nat) (q : Z) (c : CartItem.t) : CartItem.t :=
  if CartItem.id c =? cid
  then CartItem.mk (CartItem.id c) q (CartItem.user_id c) (CartItem.product_id c)
  else c.

Definition cart_line_of (uid pid : nat) (c : CartItem.t) : bool :=
  (CartItem.user_id c =? uid) && (CartItem.product_id c =? pid).

(** The new quantity is written by the commit; one outside SQLite's
    64-bit range makes the binding raise [OverflowError]. *)
Definition cart_add (st : store) (uid pid : nat) (qty_field : option string) : outcome * store :=
  match find_product st pid with
  | None => (not_found, st)
  | Some product =>
      let existing := find (cart_line_of uid (Product.id product)) (cart_items st) in
      match form_int qty_field with
      | None => (Raise ValueError, st)
      | Some qty =>
          match existing with
          | Some e =>
              if int64_ok (CartItem.quantity e + Z.max 1 qty) then
                (Ok, set_cart_items st (map (bump (CartItem.id e) (Z.max 1 qty)) (cart_items st)))
              else (Raise OverflowError, st)
          | None =>
              if int64_ok (Z.max 1 qty) then
                let cid := fresh_id (map CartItem.id (cart_items st)) in
                (Ok, set_cart_items st
                       (cart_items st ++ [CartItem.mk cid (Z.max 1 qty) uid (Product.id product)]))
              else (Raise OverflowError, st)
          end
      end
  end.

Definition cart_update (st : store) (uid cid : nat) (qty_field : option string) : outcome * store :=
  match find_cart_item st cid with
  | None => (not_found, st)
  | Some item =>
      if negb (CartItem.user_id item =? uid) then (Fail AuthorizationError "Not authorized.", st)
      else
        match form_int qty_field with
        | None => (Raise ValueError, st)
        | Some qty =>
            if int64_ok (Z.max 1 qty) then
              (Ok, set_cart_items st (map (set_quantity cid (Z.max 1 qty)) (cart_items st)))
            else (Raise OverflowError, st)
        end
  end.

(** ** Checkout *)

Definition user_cart (st : store) (uid : nat) : list CartItem.t :=
  filter (fun c => CartItem.user_id c =? uid) (cart_items st).

(** The loop of [checkout]: [item.product] is the product row with the
    line's [product_id], or [None] when that row is gone, in which case
    [item.product.price] raises [AttributeError].  Returns the running total
    ([total += price * quantity] in binary64) and the new order items. *)
Fixpoint checkout_loop (prods : list Product.t) (oid next_oi : nat) (total : float)
    (items : list CartItem.t) : option (float * list OrderItem.t) :=
  match items with
  | [] => Some (total, [])
  | item :: rest =>
      match find (fun p => Product.id p =? CartItem.product_id item) prods with
      | None => None
      | Some p =>
          let total' := (total + Product.price p * z_to_float (CartItem.quantity item))%float in
          let oi := OrderItem.mk next_oi oid (Product.title p) (Product.price p)
                      (CartItem.quantity item) (Product.category p) (Some (Product.image p)) in
          match checkout_loop prods oid (S next_oi) total' rest with
          | None => None
          | Some (t, ois) => Some (t, oi :: ois)
          end
      end
  end.

Definition mem_nat (n : nat) (l : list nat) : bool := existsb (Nat.eqb n) l.

Definition checkout (st : store) (uid : nat) : outcome * store :=
  let items := user_cart st uid in
  if is_nil items then (Fail ValidationError "Your cart is empty.", st)
  else
    let oid := fresh_id (map Order.id (orders st)) in
    match checkout_loop (products st) oid (fresh_id (map OrderItem.id (order_items st))) zero items with
    | None => (Raise AttributeError, st)
    | Some (total, ois) =>
        let order := Order.mk oid (clock st) (stored_real total) uid in
        let ids := map CartItem.id items in
        (Ok, mkStore (users st) (products st)
               (filter (fun c => negb (mem_nat (CartItem.id c) ids)) (cart_items st))
               (orders st ++ [order]) (order_items st ++ ois) (S (clock st)))
    end.

(** ** Session loading *)

Definition digit_char (n : nat) : ascii := ascii_of_nat (48 + n).

(** Decimal digits of [n], most significant first ([fuel] bounds the
    number of divisions). *)
Fixpoint nat_digits (fuel n : nat) : list ascii :=
  match fuel with
  | 0 => []
  | S f => if n <? 10 then [digit_char n] else nat_digits f (n / 10) ++ [digit_char (n mod 10)]
  end.

(** [str(n)] for a non-negative integer. *)
Definition str_nat (n : nat) : string := string_of_list_ascii (nat_digits (S n) n).

(** [UserMixin.get_id]: the session stores [str(self.id)]. *)
Definition get_id (u : User.t) : string := str_nat (User.id u).

(** [load_user]: [User.query.get(int(user_id))]; [int()] may raise. *)
Definition load_user (st : store) (user_id : string) : pyexc + option User.t :=
  match py_int user_id with
  | None => inl ValueError
  | Some z => inr (find (fun u => Z.eqb (Z.of_nat (User.id u)) z) (users st))
  end.

(** ** Profile and dashboard *)

Definition dashboard_post (st : store) (uid : nat) (username_arg : string) : outcome * store :=
  let username := strip username_arg in
  if String.eqb username "" then (Fail ValidationError "Username cannot be empty.", st)
  else
    (Ok, set_users st (map (fun u => if User.id u =? uid
                                     then User.mk (User.id u) (User.email u) (User.password_hash u) username
                                     else u) (users st))).

(** The GET branch of [dashboard]: the seller's own products, newest first. *)
Definition dashboard_products (st : store) (uid : nat) : list Product.t :=
  order_by_created_desc (filter (fun p => Product.seller_id p =? uid) (products st)).

(** ** Cart page and line removal *)

(** The amounts [i.product.price * i.quantity] of the lines, in order;
    [None] when a line's product row is gone ([AttributeError] on
    [None.price]). *)
Fixpoint line_amounts (prods : list Product.t) (items : list CartItem.t) : option (list float) :=
  match items with
  | [] => Some []
  | i :: rest =>
      match find (fun p => Product.id p =? CartItem.product_id i) prods with
      | None => None
      | Some p =>
          match line_amounts prods rest with
          | None => None
          | Some xs => Some ((Product.price p * z_to_float (CartItem.quantity i))%float :: xs)
          end
      end
  end.

(** A Python number: [sum] of no item is the [int] [0]. *)
Inductive number := NInt (z : Z) | NFloat (x : float).

(** The float loop of CPython's [sum] (3.12 and later): the running sum
    [s] with Neumaier's compensation [c], added at the end when it is
    non-zero and finite. *)
Fixpoint neumaier (s c : float) (xs : list float) : float :=
  match xs with
  | [] => if negb (c =? zero)%float && is_finite c then (s + c)%float else s
  | x :: rest =>
      let t := (s + x)%float in
      let c' := if (abs x <=? abs s)%float then (c + ((s - t) + x))%float
                else (c + ((x - t) + s))%float in
      neumaier t c' rest
  end.

(** [sum(xs)] with the default start [0]: the first item is added to the
    [int] [0], which gives [0.0 + x], and the float loop takes the rest. *)
Definition py_sum (xs : list float) : number :=
  match xs with
  | [] => NInt 0
  | x :: rest => NFloat (neumaier (zero + x)%float zero rest)
  end.

(** [cart]: the user's lines and their subtotal. *)
Definition cart_view (st : store) (uid : nat) : pyexc + (list CartItem.t * number) :=
  let items := user_cart st uid in
  match line_amounts (products st) items with
  | None => inl AttributeError
  | Some xs => inr (items, py_sum xs)
  end.

Definition cart_remove (st : store) (uid cid : nat) : outcome * store :=
  match find_cart_item st cid with
  | None => (not_found, st)
  | Some item =>
      if negb (CartItem.user_id item =? uid) then (Fail AuthorizationError "Not authorized.", st)
      else (Ok, set_cart_items st (filter (fun c => negb (CartItem.id c =? cid)) (cart_items st)))
  end.

(** ** Previous purchases *)

Fixpoint insert_order_desc (o : Order.t) (l : list Order.t) : list Order.t :=
  match l with
  | [] => [o]
  | x :: l' =>
      if Order.created_at x <? Order.created_at o then o :: l
      else x :: insert_order_desc o l'
  end.

Definition purchases (st : store) (uid : nat) : list Order.t :=
  fold_right insert_order_desc [] (filter (fun o => Order.user_id o =? uid) (orders st)).

(** ** [init-db] *)

Definition DEMO_EMAIL : string := "demo@ecofinds.app".

Definition samples : list (string * string * string * float * string) :=
  [("Vintage Denim Jacket", "Classic blue denim jacket in great condition.", "Clothing", 29.99%float, "");
   ("Kindle Paperwhite", "2019 model, works perfectly.", "Electronics", 65.0%float, "");
   ("IKEA Lamp", "Minimal bedside lamp.", "Home & Kitchen", 12.5%float, "");
   ("Dumbbell Set", "Pair of 10lb dumbbells.", "Sports", 25.0%float, "")]%string.

Definition add_sample (seller : nat) (st : store) (s : string * string * string * float * string) : store :=
  let '(t, d, c, p, img) := s in
  let pid := fresh_id (map Product.id (products st)) in
  tick (set_products st (products st ++
    [Product.mk pid t d c p (Some (if String.eqb img "" then PLACEHOLDER_IMG else img)) (clock st) seller])).

(** The demo user is committed first; the samples are added only when the
    product table is empty.  The [None] branch is [demo.id] on [None]. *)
Definition init_db (gen_hash : string -> string -> string) (salt : string) (st : store) : outcome * store :=
  let st1 :=
    match find_user_by_email st DEMO_EMAIL with
    | Some _ => st
    | None => set_users st (users st ++
                [User.mk (fresh_id (map User.id (users st))) DEMO_EMAIL (gen_hash salt "demo123"%string) "demo"%string])
    end in
  if List.length (products st1) =? 0 then
    match find_user_by_email st1 DEMO_EMAIL with
    | None => (Raise AttributeError, st1)
    | Some demo => (Ok, fold_left (add_sample (User.id demo)) samples st1)
    end
  else (Ok, st1).

(** ** Sequences of requests

    The requests that write to the store, each by its acting user. *)
Inductive request :=
| RRegister (email password username salt : string)
| RDashboard (uid : nat) (username : string)
| RAddProduct (uid : nat) (f : product_form)
| REditProduct (uid pid : nat) (f : product_form)
| RDeleteProduct (uid pid : nat)
| RCartAdd (uid pid : nat) (qty : option string)
| RCartUpdate (uid cid : nat) (qty : option string)
| RCartRemove (uid cid : nat)
| RCheckout (uid : nat).

Definition step (gen_hash : string -> string -> string) (st : store) (r : request) : store :=
  match r with
  | RRegister e p u salt => snd (fst (register gen_hash st e p u salt))
  | RDashboard uid name => snd (dashboard_post st uid name)
  | RAddProduct uid f => snd (add_product st uid f)
  | REditProduct uid pid f => snd (edit_product st uid pid f)
  | RDeleteProduct uid pid => snd (delete_product st uid pid)
  | RCartAdd uid pid q => snd (cart_add st uid pid q)
  | RCartUpdate uid cid q => snd (cart_update st uid cid q)
  | RCartRemove uid cid => snd (cart_remove st uid cid)
  | RCheckout uid => snd (checkout st uid)
  end.

Definition run_requests (gen_hash : string -> string -> string) (st : store) (rs : list request) : store :=
  fold_left (step gen_hash) rs st.

(** ** A concrete scenario *)

Definition alice : User.t := User.mk 1 "alice@ecofinds.app" "h1" "alice".
Definition bob : User.t := User.mk 2 "bob@ecofinds.app" "h2" "bob".
Definition st_users : store := mkStore [alice; bob] [] [] [] [] 0.

Definition kindle_form : product_form :=
  mkForm "Kindle Paperwhite" "2019 model, works perfectly." "Electronics" "65.00" "".

Definition kindle : Product.t :=
  Product.mk 1 "Kindle Paperwhite" "2019 model, works perfectly." "Electronics"
    65%float (Some PLACEHOLDER_IMG) 0 1.

(** Alice lists the Kindle, Bob puts it in his cart. *)
Definition st_listed : store := snd (add_product st_users 1 kindle_form).
Definition st_carted : store := snd (cart_add st_listed 2 1 (Some "1"%string)).

(** Alice then deletes the listing while it is still in Bob's cart. *)
Definition st_dangling : store := snd (delete_product st_carted 1 1).

(** A sequence of catalog mutations: [edit_product] and [delete_product]
    requests, each by some user. *)
Inductive catalog_op :=
| EditOp (uid pid : nat) (f : product_form)
| DeleteOp (uid pid : nat).

Definition run_catalog_op (st : store) (op : catalog_op) : store :=
  match op with
  | EditOp uid pid f => snd (edit_product st uid pid f)
  | DeleteOp uid pid => snd (delete_product st uid pid)
  end.

Definition run_catalog (st : store) (ops : list catalog_op) : store :=
  fold_left run_catalog_op ops st.

(** * Properties *)

(** ** Generic list facts *)

Lemma fresh_id_not_in (l : list nat) : ~ In (fresh_id l) l.
Proof.
  intro H. unfold fresh_id in H.
  pose proof (proj1 (list_max_le l (list_max l)) (le_n _)) as HF.
  rewrite Forall_forall in HF. specialize (HF _ H). lia.
Qed.

Lemma find_filter_nil {A} (f : A -> bool) (l : list A) :
  filter f l = [] -> find f l = None.
Proof.
  induction l as [|a l IH]; simpl; [reflexivity|].
  destruct (f a); [discriminate | exact IH].
Qed.

Lemma find_app {A} (f : A -> bool) (l1 l2 : list A) :
  find f (l1 ++ l2) = match find f l1 with Some x => Some x | None => find f l2 end.
Proof.
  induction l1 as [|a l1 IH]; simpl; [reflexivity|].
  destruct (f a); [reflexivity | exact IH].
Qed.

Lemma filter_map_same {A} (f : A -> bool) (g : A -> A) (l : list A) :
  (forall x, f (g x) = f x) -> filter f (map g l) = map g (filter f l).
Proof.
  intro Hg. induction l as [|a l IH]; simpl; [reflexivity|].
  rewrite Hg. destruct (f a); simpl; rewrite IH; reflexivity.
Qed.

(** ** Checkout of an empty cart *)

(** C9: a user with no cart line who checks out gets the ValidationError
    "Your cart is empty." and the store is left exactly as it was: no Order
    and no OrderItem is created. *)
Theorem checkout_empty_cart (st : store) (uid : nat) (Hempty : user_cart st uid = []) :
  checkout st uid = (Fail ValidationError "Your cart is empty.", st).
Proof. unfold checkout. rewrite Hempty. reflexivity. Qed.

Lemma checkout_empty_cart_witness :
  user_cart st_users 2 = [] /\
  checkout st_users 2 = (Fail ValidationError "Your cart is empty.", st_users).
Proof. split; [reflexivity | apply checkout_empty_cart; reflexivity]. Defined.

(** ** Only the owner edits or deletes a product *)

(** C6: when product [pid] exists and its seller is not the acting user,
    both [edit_product] (with any form) and [delete_product] fail with an
    AuthorizationError and return the store unchanged, so the product is
    still there with all its fields. *)
Theorem non_owner_cannot_mutate (st : store) (uid pid : nat) (p : Product.t) (f : product_form)
    (Hp : find_product st pid = Some p) (Hseller : Product.seller_id p <> uid) :
  edit_product st uid pid f = (Fail AuthorizationError "Not authorized.", st) /\
  delete_product st uid pid = (Fail AuthorizationError "Not authorized.", st) /\
  find_product (snd (edit_product st uid pid f)) pid = Some p /\
  find_product (snd (delete_product st uid pid)) pid = Some p.
Proof.
  assert (Hb : (Product.seller_id p =? uid) = false) by (apply Nat.eqb_neq; exact Hseller).
  unfold edit_product, delete_product. rewrite Hp, Hb. simpl.
  repeat split; exact Hp.
Qed.

Lemma non_owner_cannot_mutate_witness :
  find_product st_listed 1 = Some kindle /\ Product.seller_id kindle <> 2 /\
  edit_product st_listed 2 1 kindle_form = (Fail AuthorizationError "Not authorized.", st_listed).
Proof.
  split; [vm_compute; reflexivity|]. split; [simpl; lia|].
  apply (non_owner_cannot_mutate st_listed 2 1 kindle kindle_form);
    [vm_compute; reflexivity | simpl; lia].
Defined.

(** ** Order history is a snapshot *)

Lemma catalog_op_keeps_orders (st : store) (op : catalog_op) :
  orders (run_catalog_op st op) = orders st /\
  order_items (run_catalog_op st op) = order_items st.
Proof.
  destruct op as [uid pid f|uid pid]; simpl.
  - unfold edit_product.
    destruct (find_product st pid); [|split; reflexivity].
    destruct (negb _); [split; reflexivity|].
    destruct (form_invalid f); [split; reflexivity|].
    destruct (py_float _) as [v|]; [destruct (is_nan v)|]; split; reflexivity.
  - unfold delete_product.
    destruct (find_product st pid); [|split; reflexivity].
    destruct (negb _); split; reflexivity.
Qed.

(** C5: any sequence of [edit_product] and [delete_product] requests, by
    any users on any products, leaves the Order and OrderItem tables as
    they were: every order's total and every order item's title, price,
    category, image and quantity are unchanged. *)
Theorem catalog_ops_preserve_orders (st : store) (ops : list catalog_op) :
  orders (run_catalog st ops) = orders st /\
  order_items (run_catalog st ops) = order_items st.
Proof.
  unfold run_catalog. revert st.
  induction ops as [|op ops IH]; intro st; simpl; [split; reflexivity|].
  destruct (IH (run_catalog_op st op)) as [H1 H2].
  destruct (catalog_op_keeps_orders st op) as [H3 H4].
  split; congruence.
Qed.

(** ** Adding to the cart *)

Lemma find_product_set_cart_items (st : store) (x : list CartItem.t) (pid : nat) :
  find_product (set_cart_items st x) pid = find_product st pid.
Proof. reflexivity. Qed.

Lemma find_product_id (st : store) (pid : nat) (p : Product.t) :
  find_product st pid = Some p -> Product.id p = pid.
Proof.
  unfold find_product. intro H. apply find_some in H.
  apply Nat.eqb_eq. exact (proj2 H).
Qed.

Lemma cart_line_of_bump (uid pid cid : nat) (d : Z) (c : CartItem.t) :
  cart_line_of uid pid (bump cid d c) = cart_line_of uid pid c.
Proof. unfold bump. destruct (CartItem.id c =? cid); reflexivity. Qed.

(** C4 fails as stated: Bob's line for the Kindle holds 1; adding the
    quantity 9223372036854775807 (2^63 - 1) would make it 2^63, which does
    not fit SQLite's INTEGER, so the commit raises [OverflowError] and the
    line is not incremented. *)
Lemma cart_add_quantity_overflows :
  form_int (Some "9223372036854775807"%string) = Some (2 ^ 63 - 1)%Z /\
  find (cart_line_of 2 1) (cart_items st_carted) = Some (CartItem.mk 1 1 2 1) /\
  cart_add st_carted 2 1 (Some "9223372036854775807"%string) = (Raise OverflowError, st_carted).
Proof. split; [|split]; vm_compute; reflexivity. Qed.

(** C4 (amended): when product [pid] exists and the quantity field (of at
    most 4300 characters, within CPython's limit for [int()]) reads as the
    integer [q], [cart_add] touches only the cart.  If the user already has
    a line for the product and its quantity plus [max 1 q] fits in a signed
    64-bit integer, that line (and no other) gets [max 1 q] added and no
    row is added; if the user has no line and [max 1 q] fits, exactly one
    new line with quantity [max 1 q] is appended; when the new quantity does
    not fit, the commit raises [OverflowError] and the store is unchanged.
    In particular, from a cart without a line for the product, two
    additions of quantity "2" leave exactly one line for (user, product),
    with quantity 4. *)
Theorem cart_add_merges (st : store) (uid pid : nat) (p : Product.t)
    (qty_field : option string) (q : Z)
    (Hp : find_product st pid = Some p) (Hq : form_int qty_field = Some q)
    (Hlen : forall s, qty_field = Some s -> String.length s <= 4300) :
  (let r := cart_add st uid pid qty_field in
   match find (cart_line_of uid pid) (cart_items st) with
   | Some e =>
       if int64_ok (CartItem.quantity e + Z.max 1 q) then
         fst r = Ok /\ products (snd r) = products st /\
         orders (snd r) = orders st /\ order_items (snd r) = order_items st /\
         cart_items (snd r) = map (bump (CartItem.id e) (Z.max 1 q)) (cart_items st)
       else r = (Raise OverflowError, st)
   | None =>
       if int64_ok (Z.max 1 q) then
         fst r = Ok /\ products (snd r) = products st /\
         orders (snd r) = orders st /\ order_items (snd r) = order_items st /\
         exists c, cart_items (snd r) = cart_items st ++ [c] /\
           CartItem.quantity c = Z.max 1 q /\ CartItem.user_id c = uid /\
           CartItem.product_id c = pid /\ ~ In (CartItem.id c) (map CartItem.id (cart_items st))
       else r = (Raise OverflowError, st)
   end) /\
  (filter (cart_line_of uid pid) (cart_items st) = [] ->
   exists c,
     filter (cart_line_of uid pid)
       (cart_items (snd (cart_add (snd (cart_add st uid pid (Some "2"%string))) uid pid
                           (Some "2"%string)))) = [c] /\
     CartItem.quantity c = 4%Z).
Proof.
  pose proof (find_product_id _ _ _ Hp) as Hid.
  split.
  - unfold cart_add. rewrite Hp, Hid, Hq.
    destruct (find (cart_line_of uid pid) (cart_items st)) as [e|] eqn:He.
    + destruct (int64_ok (CartItem.quantity e + Z.max 1 q)); [|reflexivity].
      simpl. repeat split; reflexivity.
    + destruct (int64_ok (Z.max 1 q)); [|reflexivity].
      simpl. repeat split; try reflexivity.
      eexists. repeat split; try reflexivity.
      apply fresh_id_not_in.
  - intro Hnil.
    set (c0 := CartItem.mk (fresh_id (map CartItem.id (cart_items st))) 2 uid pid).
    assert (H1 : cart_add st uid pid (Some "2"%string) =
                 (Ok, set_cart_items st (cart_items st ++ [c0]))).
    { unfold cart_add. rewrite Hp, Hid, (find_filter_nil _ _ Hnil). reflexivity. }
    rewrite H1. simpl snd.
    assert (Hc0 : cart_line_of uid pid c0 = true).
    { unfold cart_line_of, c0. simpl. rewrite !Nat.eqb_refl. reflexivity. }
    unfold cart_add. rewrite find_product_set_cart_items, Hp, Hid. simpl cart_items.
    rewrite find_app, (find_filter_nil _ _ Hnil). simpl find. rewrite Hc0.
    simpl. rewrite filter_map_same by (intro; apply cart_line_of_bump).
    rewrite filter_app, Hnil. simpl filter. rewrite Hc0. simpl.
    eexists. split; [reflexivity|].
    unfold bump, c0. simpl. rewrite Nat.eqb_refl. reflexivity.
Qed.

Lemma cart_add_merges_witness :
  find_product st_listed 1 = Some kindle /\ form_int (Some "2"%string) = Some 2%Z /\
  find (cart_line_of 2 1) (cart_items st_listed) = None /\
  fst (cart_add st_listed 2 1 (Some "2"%string)) = Ok.
Proof.
  assert (Hp : find_product st_listed 1 = Some kindle) by (vm_compute; reflexivity).
  assert (Hq : form_int (Some "2"%string) = Some 2%Z) by (vm_compute; reflexivity).
  assert (Hn : find (cart_line_of 2 1) (cart_items st_listed) = None) by (vm_compute; reflexivity).
  assert (Hl : forall s, Some "2"%string = Some s -> String.length s <= 4300)
    by (intros s Hs; injection Hs as <-; simpl; lia).
  split; [exact Hp|]. split; [exact Hq|]. split; [exact Hn|].
  pose proof (proj1 (cart_add_merges st_listed 2 1 kindle (Some "2"%string) 2 Hp Hq Hl)) as H.
  cbv zeta in H. rewrite Hn in H. exact (proj1 H).
Defined.

(** ** Quantity fields that are not integers *)

(** C10 (amended, in the order the handlers make their checks): when the
    quantity field does not parse as an integer, [cart_add] answers 404 if
    the product does not exist and otherwise raises the uncaught
    [ValueError] of [int()]; [cart_update] answers 404 if the cart line does
    not exist, the AuthorizationError "Not authorized." if it belongs to
    another user, and otherwise raises [ValueError].  In every case the
    store (the cart in particular) is left as it was. *)
Theorem bad_quantity_raises (st : store) (uid pid cid : nat) (s : string)
    (Hs : py_int s = None) :
  cart_add st uid pid (Some s) =
    (match find_product st pid with
     | None => not_found
     | Some _ => Raise ValueError
     end, st) /\
  cart_update st uid cid (Some s) =
    (match find_cart_item st cid with
     | None => not_found
     | Some item =>
         if CartItem.user_id item =? uid then Raise ValueError
         else Fail AuthorizationError "Not authorized."
     end, st).
Proof.
  split.
  - unfold cart_add. destruct (find_product st pid); [|reflexivity]. simpl. rewrite Hs. reflexivity.
  - unfold cart_update. destruct (find_cart_item st cid) as [item|]; [|reflexivity].
    destruct (CartItem.user_id item =? uid); simpl; [|reflexivity]. rewrite Hs. reflexivity.
Qed.

Lemma bad_quantity_raises_witness :
  py_int "abc" = None /\
  cart_add st_carted 2 1 (Some "abc"%string) = (Raise ValueError, st_carted) /\
  cart_update st_carted 2 1 (Some "abc"%string) = (Raise ValueError, st_carted) /\
  cart_add st_carted 2 7 (Some "abc"%string) = (not_found, st_carted).
Proof.
  assert (Hs : py_int "abc" = None) by (vm_compute; reflexivity).
  destruct (bad_quantity_raises st_carted 2 1 1 "abc" Hs) as [H1 H2].
  destruct (bad_quantity_raises st_carted 2 7 1 "abc" Hs) as [H3 _].
  split; [exact Hs|]. rewrite H1, H2, H3.
  split; [|split]; vm_compute; reflexivity.
Defined.

(** C10 fails as stated: a non-integer quantity sent to [cart_update] for
    another user's cart line is answered by the AuthorizationError check,
    which comes first; no exception is raised. *)
Lemma bad_quantity_on_foreign_line_not_raised :
  py_int "abc" = None /\
  cart_update st_carted 1 1 (Some "abc"%string) = (Fail AuthorizationError "Not authorized.", st_carted).
Proof. split; vm_compute; reflexivity. Qed.

(** ** Price validation *)

Lemma find_map_same {A} (f : A -> bool) (g : A -> A) (l : list A) :
  (forall x, f (g x) = f x) -> find f (map g l) = option_map g (find f l).
Proof.
  intro Hg. induction l as [|a l IH]; simpl; [reflexivity|].
  rewrite Hg. destruct (f a); [reflexivity | exact IH].
Qed.

Definition lamp_negative_form : product_form :=
  mkForm "IKEA Lamp" "Minimal bedside lamp." "Home & Kitchen" "-5" "".

Definition lamp_negative : Product.t :=
  Product.mk 1 "IKEA Lamp" "Minimal bedside lamp." "Home & Kitchen"
    (-5)%float (Some PLACEHOLDER_IMG) 0 1.

Definition lamp_inf_form : product_form :=
  mkForm "IKEA Lamp" "Minimal bedside lamp." "Home & Kitchen" "-Infinity" "".

Definition lamp_nan_form : product_form :=
  mkForm "IKEA Lamp" "Minimal bedside lamp." "Home & Kitchen" "nan" "".

(** C2 fails as stated: the price "-5" parses to the number -5, and
    [add_product] persists a product with that negative price; so does the
    price "-Infinity", which [float()] reads as minus infinity. *)
Lemma negative_price_persisted :
  py_float "-5" = Some (-5)%float /\
  fst (add_product st_users 1 lamp_negative_form) = Ok /\
  In lamp_negative (products (snd (add_product st_users 1 lamp_negative_form))) /\
  (Product.price lamp_negative <? 0)%float = true /\
  py_float "-Infinity" = Some neg_infinity /\
  fst (add_product st_users 1 lamp_inf_form) = Ok /\
  map Product.price (products (snd (add_product st_users 1 lamp_inf_form))) = [neg_infinity].
Proof.
  split; [vm_compute; reflexivity|]. split; [vm_compute; reflexivity|].
  split; [vm_compute; left; reflexivity|].
  repeat split; vm_compute; reflexivity.
Qed.

(** A price that [float()] reads as NaN is stored as [NULL], which the
    [NOT NULL] column refuses: the commit raises [IntegrityError]. *)
Lemma nan_price_refused :
  py_float "nan" = Some nan /\
  add_product st_users 1 lamp_nan_form = (Raise IntegrityError, st_users) /\
  edit_product st_listed 1 1 lamp_nan_form = (Raise IntegrityError, st_listed).
Proof. split; [|split]; vm_compute; reflexivity. Qed.

(** C2 (amended): [add_product] and [edit_product] reject the form with a
    ValidationError exactly when a field is blank, the category is outside
    the closed set, or the price is not a Python float literal (the
    spellings [inf], [infinity] and [nan] are float literals); the sign of
    the price is not checked.  When the form passes and its price parses as
    a value [v] that is not NaN (negative or infinite included),
    [add_product] appends one product of the acting user with price [v],
    and [edit_product] by the owner sets the price to [v], both as SQLite
    stores it ([db_real v], which is [v] except that [-0.0] becomes [0.0]).
    When the price parses as NaN, both raise [IntegrityError] at the
    commit and leave the store unchanged. *)
Theorem price_sign_unchecked (st : store) (uid : nat) (f : product_form) (v : float)
    (Hf : form_invalid f = false) (Hv : py_float (strip (f_price f)) = Some v)
    (Hn : is_nan v = false) :
  (fst (add_product st uid f) = Ok /\
   exists p, products (snd (add_product st uid f)) = products st ++ [p] /\
             Product.price p = db_real v /\ Product.seller_id p = uid) /\
  (forall pid p0, find_product st pid = Some p0 -> Product.seller_id p0 = uid ->
     fst (edit_product st uid pid f) = Ok /\
     exists p1, find_product (snd (edit_product st uid pid f)) pid = Some p1 /\
                Product.price p1 = db_real v) /\
  (forall f', form_invalid f' = true \/ py_float (strip (f_price f')) = None ->
     (exists msg, add_product st uid f' = (Fail ValidationError msg, st)) /\
     (forall pid p0, find_product st pid = Some p0 -> Product.seller_id p0 = uid ->
        exists msg, edit_product st uid pid f' = (Fail ValidationError msg, st))) /\
  (forall f' w, form_invalid f' = false -> py_float (strip (f_price f')) = Some w ->
     is_nan w = true ->
     add_product st uid f' = (Raise IntegrityError, st) /\
     (forall pid p0, find_product st pid = Some p0 -> Product.seller_id p0 = uid ->
        edit_product st uid pid f' = (Raise IntegrityError, st))).
Proof.
  split; [|split; [|split]].
  - unfold add_product. rewrite Hf, Hv, Hn. simpl. split; [reflexivity|].
    eexists. split; [reflexivity|]. split; reflexivity.
  - intros pid p0 Hp0 Ho. unfold edit_product. rewrite Hp0, Ho, Nat.eqb_refl, Hf, Hv, Hn.
    simpl. split; [reflexivity|].
    unfold find_product. simpl. rewrite find_map_same.
    + fold (find_product st pid). rewrite Hp0. simpl.
      rewrite (find_product_id _ _ _ Hp0), Nat.eqb_refl.
      eexists. split; reflexivity.
    + intro x. destruct (Product.id x =? pid) eqn:E; simpl; exact E.
  - intros f' Hbad. split.
    + unfold add_product.
      destruct Hbad as [Hb|Hb]; [rewrite Hb; eexists; reflexivity|].
      destruct (form_invalid f'); [eexists; reflexivity|].
      rewrite Hb. eexists; reflexivity.
    + intros pid p0 Hp0 Ho. unfold edit_product. rewrite Hp0, Ho, Nat.eqb_refl. simpl.
      destruct Hbad as [Hb|Hb]; [rewrite Hb; eexists; reflexivity|].
      destruct (form_invalid f'); [eexists; reflexivity|].
      rewrite Hb. eexists; reflexivity.
  - intros f' w Hf' Hw Hnan. split.
    + unfold add_product. rewrite Hf', Hw, Hnan. reflexivity.
    + intros pid p0 Hp0 Ho. unfold edit_product. rewrite Hp0, Ho, Nat.eqb_refl. simpl.
      rewrite Hf', Hw, Hnan. reflexivity.
Qed.

Lemma price_sign_unchecked_witness :
  form_invalid lamp_negative_form = false /\
  py_float (strip (f_price lamp_negative_form)) = Some (-5)%float /\
  is_nan (-5)%float = false /\
  fst (add_product st_users 1 lamp_negative_form) = Ok.
Proof.
  assert (Hf : form_invalid lamp_negative_form = false) by (vm_compute; reflexivity).
  assert (Hv : py_float (strip (f_price lamp_negative_form)) = Some (-5)%float)
    by (vm_compute; reflexivity).
  assert (Hn : is_nan (-5)%float = false) by (vm_compute; reflexivity).
  split; [exact Hf|]. split; [exact Hv|]. split; [exact Hn|].
  exact (proj1 (proj1 (price_sign_unchecked st_users 1 lamp_negative_form (-5)%float Hf Hv Hn))).
Defined.

(** ** Deleting a product *)

Lemma find_id_filter_other (l : list Product.t) (pid q : nat) :
  q <> pid ->
  find (fun p => Product.id p =? q) (filter (fun p => negb (Product.id p =? pid)) l) =
  find (fun p => Product.id p =? q) l.
Proof.
  intro Hq. induction l as [|a l IH]; simpl; [reflexivity|].
  destruct (Product.id a =? pid) eqn:E; simpl.
  - apply Nat.eqb_eq in E. subst pid.
    destruct (Product.id a =? q) eqn:E'; [apply Nat.eqb_eq in E'; congruence | exact IH].
  - destruct (Product.id a =? q); [reflexivity | exact IH].
Qed.

Lemma find_id_filter_self (l : list Product.t) (pid : nat) :
  find (fun p => Product.id p =? pid) (filter (fun p => negb (Product.id p =? pid)) l) = None.
Proof.
  induction l as [|a l IH]; simpl; [reflexivity|].
  destruct (Product.id a =? pid) eqn:E; simpl; [exact IH|]. rewrite E. exact IH.
Qed.

(** C3 fails as stated: after Alice deletes the Kindle, Bob's cart line
    for it is still in the CartItem table and refers to a product id that
    no longer exists; the deletion was neither rejected nor cascaded. *)
Lemma delete_leaves_dangling_cart_line :
  fst (delete_product st_carted 1 1) = Ok /\
  In (CartItem.mk 1 1 2 1) (cart_items st_dangling) /\
  find_product st_dangling 1 = None.
Proof. split; [|split]; vm_compute; [reflexivity | left; reflexivity | reflexivity]. Qed.

(** C3 (amended): [delete_product] by the owning seller always succeeds
    and deletes only the product row: no other product changes, and the
    CartItem table (including lines that refer to the deleted product), the
    Order, OrderItem and User tables are left as they were. *)
Theorem owner_delete_removes_only_product (st : store) (uid pid : nat) (p : Product.t)
    (Hp : find_product st pid = Some p) (Howner : Product.seller_id p = uid) :
  let st' := snd (delete_product st uid pid) in
  fst (delete_product st uid pid) = Ok /\
  find_product st' pid = None /\
  (forall q, q <> pid -> find_product st' q = find_product st q) /\
  cart_items st' = cart_items st /\ orders st' = orders st /\
  order_items st' = order_items st /\ users st' = users st.
Proof.
  unfold delete_product. rewrite Hp, Howner, Nat.eqb_refl. simpl.
  split; [reflexivity|]. split; [apply find_id_filter_self|].
  split; [intros q Hq; apply find_id_filter_other; exact Hq|].
  repeat split; reflexivity.
Qed.

Lemma owner_delete_removes_only_product_witness :
  find_product st_carted 1 = Some kindle /\ Product.seller_id kindle = 1%nat /\
  fst (delete_product st_carted 1 1) = Ok.
Proof.
  split; [vm_compute; reflexivity|]. split; [reflexivity|].
  exact (proj1 (owner_delete_removes_only_product st_carted 1 1 kindle
                  ltac:(vm_compute; reflexivity) ltac:(reflexivity))).
Defined.

(** ** Checkout *)

(** The price of a cart line at checkout time: its product's current price
    times the line's quantity. *)
Definition line_total (prods : list Product.t) (c : CartItem.t) : float :=
  match find (fun p => Product.id p =? CartItem.product_id c) prods with
  | Some p => (Product.price p * z_to_float (CartItem.quantity c))%float
  | None => zero
  end.

(** [sum] of [product_price * quantity] over order items, accumulated
    from [0.0] left to right in binary64. *)
Definition order_items_total (ois : list OrderItem.t) : float :=
  fold_left (fun t oi => (t + OrderItem.product_price oi * z_to_float (OrderItem.quantity oi))%float)
    ois zero.

(** [oi] is the snapshot, in order [oid], of the cart line [c]. *)
Definition snapshot (prods : list Product.t) (oid : nat) (c : CartItem.t) (oi : OrderItem.t) : Prop :=
  exists p, find (fun p => Product.id p =? CartItem.product_id c) prods = Some p /\
    OrderItem.order_id oi = oid /\
    OrderItem.product_title oi = Product.title p /\
    OrderItem.product_price oi = Product.price p /\
    OrderItem.product_category oi = Product.category p /\
    OrderItem.product_image_url oi = Some (Product.image p) /\
    OrderItem.quantity oi = CartItem.quantity c.

Lemma checkout_loop_ok (prods : list Product.t) (oid : nat) (items : list CartItem.t) :
  forall next total,
  Forall (fun c => find (fun p => Product.id p =? CartItem.product_id c) prods <> None) items ->
  exists ois,
    checkout_loop prods oid next total items =
      Some (fold_left (fun t c => (t + line_total prods c)%float) items total, ois) /\
    Forall2 (snapshot prods oid) items ois /\
    fold_left (fun t oi => (t + OrderItem.product_price oi * z_to_float (OrderItem.quantity oi))%float)
      ois total =
    fold_left (fun t c => (t + line_total prods c)%float) items total.
Proof.
  induction items as [|c items IH]; intros next total HF; simpl.
  - exists []. split; [reflexivity|]. split; [constructor | reflexivity].
  - inversion HF as [|? ? Hc Hrest]; subst.
    destruct (find (fun p => Product.id p =? CartItem.product_id c) prods) as [p|] eqn:E;
      [|contradiction].
    destruct (IH (S next) (total + Product.price p * z_to_float (CartItem.quantity c))%float Hrest)
      as [ois [Hl [H2 Hs]]].
    assert (Hlt : line_total prods c = (Product.price p * z_to_float (CartItem.quantity c))%float)
      by (unfold line_total; rewrite E; reflexivity).
    rewrite Hl, Hlt.
    eexists. split; [reflexivity|]. split.
    + constructor; [|exact H2].
      exists p. repeat split; first [exact E | reflexivity].
    + simpl. exact Hs.
Qed.

Lemma user_cart_cleared (uid : nat) (l0 l : list CartItem.t) :
  (forall c, In c l -> CartItem.user_id c = uid -> In c l0) ->
  filter (fun c => CartItem.user_id c =? uid)
    (filter (fun c => negb (mem_nat (CartItem.id c) (map CartItem.id l0))) l) = [].
Proof.
  induction l as [|a l IH]; intro Hsub; simpl; [reflexivity|].
  assert (IH' : filter (fun c => CartItem.user_id c =? uid)
                  (filter (fun c => negb (mem_nat (CartItem.id c) (map CartItem.id l0))) l) = [])
    by (apply IH; intros c Hc; apply Hsub; right; exact Hc).
  destruct (mem_nat (CartItem.id a) (map CartItem.id l0)) eqn:Hm; simpl; [exact IH'|].
  destruct (CartItem.user_id a =? uid) eqn:Hu; [|exact IH'].
  exfalso. apply Nat.eqb_eq in Hu.
  assert (Hin : In (CartItem.id a) (map CartItem.id l0))
    by (apply in_map; apply Hsub; [left; reflexivity | exact Hu]).
  unfold mem_nat in Hm. clear -Hm Hin.
  assert (H : exists x, In x (map CartItem.id l0) /\ (CartItem.id a =? x) = true)
    by (exists (CartItem.id a); split; [exact Hin | apply Nat.eqb_refl]).
  rewrite <- existsb_exists in H. congruence.
Qed.

(** C1 fails as stated: Bob's cart is not empty, but its line refers to
    the Kindle that Alice deleted, so [item.product] is [None] and checkout
    raises [AttributeError]: no order is created and the cart stays. *)
Lemma checkout_crashes_on_dangling_line :
  user_cart st_dangling 2 <> [] /\
  checkout st_dangling 2 = (Raise AttributeError, st_dangling).
Proof. split; vm_compute; [discriminate | reflexivity]. Qed.

Definition safe_form (price : string) : product_form :=
  mkForm "Safe" "Fireproof safe." "Home & Kitchen" price "".

(** Alice lists two products priced 1e308 and -1e308; Bob puts two of
    each in his cart. *)
Definition st_huge : store :=
  let s1 := snd (add_product st_users 1 (safe_form "1e308")) in
  let s2 := snd (add_product s1 1 (safe_form "-1e308")) in
  let s3 := snd (cart_add s2 2 1 (Some "2"%string)) in
  snd (cart_add s3 2 2 (Some "2"%string)).

(** The total of that cart overflows: 1e308 * 2 is +inf, -1e308 * 2 is
    -inf, and inf + -inf is NaN, which SQLite stores as [NULL] in the
    nullable [total_amount] column; the checkout succeeds. *)
Lemma checkout_nan_total_is_null :
  map Product.price (products st_huge) = [1e308%float; (-1e308)%float] /\
  map CartItem.quantity (user_cart st_huge 2) = [2%Z; 2%Z] /\
  Forall (fun c => find_product st_huge (CartItem.product_id c) <> None) (user_cart st_huge 2) /\
  checkout st_huge 2 = (Ok, snd (checkout st_huge 2)) /\
  map Order.total_amount (orders (snd (checkout st_huge 2))) = [None].
Proof.
  split; [vm_compute; reflexivity|]. split; [vm_compute; reflexivity|].
  split; [vm_compute; repeat constructor; discriminate|].
  split; vm_compute; reflexivity.
Qed.

(** C1 (amended): when the user's cart is non-empty and each of its lines
    refers to an existing product, checkout succeeds and appends exactly one
    Order of that user.  Its [total_amount] is the binary64 sum, accumulated
    from [0.0] line by line in cart order, of the product's current price
    times the quantity, as SQLite stores it: [NULL] ([None]) when that sum
    is NaN (as with a +inf and a -inf line amount), the sum otherwise.  The
    same holds of the sum of price times quantity over the new order items.
    Checkout appends one OrderItem per cart line, in order, holding the
    product's title, price, category and image and the line's quantity;
    afterwards the user has no cart line. *)
Theorem checkout_converts_cart (st : store) (uid : nat)
    (Hne : user_cart st uid <> [])
    (Hprod : Forall (fun c => find_product st (CartItem.product_id c) <> None) (user_cart st uid)) :
  exists o ois st',
    checkout st uid = (Ok, st') /\
    orders st' = orders st ++ [o] /\ Order.user_id o = uid /\
    Order.total_amount o =
      stored_real (fold_left (fun t c => (t + line_total (products st) c)%float) (user_cart st uid) zero) /\
    Order.total_amount o = stored_real (order_items_total ois) /\
    order_items st' = order_items st ++ ois /\
    Forall2 (snapshot (products st) (Order.id o)) (user_cart st uid) ois /\
    user_cart st' uid = [] /\
    products st' = products st /\ users st' = users st.
Proof.
  unfold checkout.
  destruct (user_cart st uid) as [|c0 rest] eqn:Hc; [contradiction|]. simpl is_nil. cbv iota.
  rewrite <- Hc in *.
  destruct (checkout_loop_ok (products st) (fresh_id (map Order.id (orders st))) (user_cart st uid)
              (fresh_id (map OrderItem.id (order_items st))) zero Hprod)
    as [ois [Hl [H2 Hs]]].
  rewrite Hl.
  eexists. exists ois. eexists.
  split; [reflexivity|]. split; [reflexivity|]. split; [reflexivity|].
  split; [reflexivity|]. split; [unfold order_items_total; rewrite Hs; reflexivity|].
  split; [reflexivity|].
  split; [exact H2|]. split; [|split; reflexivity].
  unfold user_cart. simpl cart_items. apply user_cart_cleared.
  intros c Hin Hu. unfold user_cart. apply filter_In. split; [exact Hin|].
  apply Nat.eqb_eq. exact Hu.
Qed.

Lemma checkout_converts_cart_witness :
  user_cart st_carted 2 <> [] /\
  Forall (fun c => find_product st_carted (CartItem.product_id c) <> None) (user_cart st_carted 2) /\
  fst (checkout st_carted 2) = Ok.
Proof.
  assert (Hne : user_cart st_carted 2 <> []) by (vm_compute; discriminate).
  assert (Hprod : Forall (fun c => find_product st_carted (CartItem.product_id c) <> None)
                    (user_cart st_carted 2))
    by (vm_compute; constructor; [discriminate | constructor]).
  split; [exact Hne|]. split; [exact Hprod|].
  destruct (checkout_converts_cart st_carted 2 Hne Hprod) as [o [ois [st' [H _]]]].
  rewrite H. reflexivity.
Defined.

(** ** Registration and login *)

Section AuthProps.

Variable gen_hash : string -> string -> string.
Variable check_hash : string -> string -> bool.

(** Werkzeug's [check_password_hash] accepts the password a hash was
    generated from, whatever the salt. *)
Hypothesis check_gen : forall salt pw, check_hash (gen_hash salt pw) pw = true.

(** C7 (amended): after a successful registration, a login with the same
    email and password succeeds and puts the newly created user in the
    session; a second registration whose email normalises to the same
    address fails and creates no user, with ConflictError when its password
    and username are non-blank and with ValidationError otherwise. *)
Theorem register_login_duplicate (st st' : store) (e pw un salt : string) (s : option nat)
    (Hreg : register gen_hash st e pw un salt = (Ok, st', s)) :
  (exists u, s = Some (User.id u) /\ users st' = users st ++ [u] /\
             User.email u = lower (strip e) /\
             login check_hash st' e pw = (Ok, Some (User.id u))) /\
  (forall e' pw' un' salt', lower (strip e') = lower (strip e) ->
     exists msg, register gen_hash st' e' pw' un' salt' =
       (Fail (if String.eqb (strip pw') "" || String.eqb (strip un') ""
              then ValidationError else ConflictError) msg, st', None)).
Proof.
  unfold register in Hreg.
  destruct (String.eqb (lower (strip e)) "" || String.eqb (strip pw) "" || String.eqb (strip un) "")
    eqn:Hblank; [discriminate|].
  destruct (find_user_by_email st (lower (strip e))) as [u0|] eqn:Hf; [discriminate|].
  injection Hreg as <- <-.
  set (u := User.mk (fresh_id (map User.id (users st))) (lower (strip e))
              (gen_hash salt (strip pw)) (strip un)).
  assert (Hfind : find_user_by_email (set_users st (users st ++ [u])) (lower (strip e)) = Some u).
  { unfold find_user_by_email. simpl users. rewrite find_app.
    unfold find_user_by_email in Hf. rewrite Hf. simpl. rewrite String.eqb_refl. reflexivity. }
  split.
  - exists u. split; [reflexivity|]. split; [reflexivity|]. split; [reflexivity|].
    unfold login. rewrite Hfind. simpl. rewrite check_gen. reflexivity.
  - intros e' pw' un' salt' He'. unfold register. rewrite He'.
    apply orb_false_iff in Hblank. destruct Hblank as [Hblank _].
    apply orb_false_iff in Hblank. destruct Hblank as [He0 _]. rewrite He0. simpl.
    destruct (String.eqb (strip pw') "" || String.eqb (strip un') "") eqn:Hb; simpl.
    + eexists; reflexivity.
    + rewrite Hfind. eexists; reflexivity.
Qed.

End AuthProps.

(** An instance of the hash interface for concrete runs. *)
Definition identity_hash (salt pw : string) : string := pw.
Definition identity_check (h pw : string) : bool := String.eqb h pw.

Lemma identity_check_gen : forall salt pw, identity_check (identity_hash salt pw) pw = true.
Proof. intros salt pw. apply String.eqb_refl. Qed.

Definition st_carol : store :=
  snd (fst (register identity_hash st_users " Carol@Example.org " "pw" "carol" "salt")).

Lemma register_login_duplicate_witness :
  register identity_hash st_users " Carol@Example.org " "pw" "carol" "salt" = (Ok, st_carol, Some 3) /\
  login identity_check st_carol "carol@example.org" "pw" = (Ok, Some 3).
Proof.
  assert (Hreg : register identity_hash st_users " Carol@Example.org " "pw" "carol" "salt" =
                 (Ok, st_carol, Some 3)) by (vm_compute; reflexivity).
  split; [exact Hreg|].
  destruct (proj1 (register_login_duplicate identity_hash identity_check identity_check_gen
                     st_users st_carol " Carol@Example.org " "pw" "carol" "salt" (Some 3) Hreg))
    as [u [Hs [_ [_ Hl]]]].
  injection Hs as Hs. rewrite Hs. exact Hl.
Defined.

(** C7 fails as stated: a second registration of Carol's address (in
    another case) with a blank password is answered by the blank-field check,
    which comes first, with a ValidationError rather than a ConflictError. *)
Lemma duplicate_email_blank_password :
  register identity_hash st_carol "CAROL@example.org" "" "carol2" "salt2" =
    (Fail ValidationError "Please fill all fields.", st_carol, None).
Proof. vm_compute. reflexivity. Qed.

(** ** The product listing *)

Definition is_wild (c : ascii) : bool := Ascii.eqb c "%"%char || Ascii.eqb c "_"%char.

(** Whether a search text contains a character that [LIKE] treats as a
    wildcard. *)
Definition has_like_wildcard (s : string) : bool := existsb is_wild (list_ascii_of_string s).

(** Case-insensitive substring containment of [needle] in [hay]. *)
Definition contains_ci (needle hay : string) : Prop :=
  exists pre post,
    list_ascii_of_string (lower hay) = pre ++ list_ascii_of_string (lower needle) ++ post.

Definition newer_first (a b : Product.t) : Prop := Product.created_at b <= Product.created_at a.

Lemma lower_append (a b : string) : lower (String.append a b) = String.append (lower a) (lower b).
Proof. induction a as [|c a IH]; simpl; [reflexivity|]. rewrite IH. reflexivity. Qed.

Lemma list_ascii_append (a b : string) :
  list_ascii_of_string (String.append a b) = list_ascii_of_string a ++ list_ascii_of_string b.
Proof. induction a as [|c a IH]; simpl; [reflexivity|]. rewrite IH. reflexivity. Qed.

Lemma list_ascii_lower (s : string) :
  list_ascii_of_string (lower s) = map ascii_lower (list_ascii_of_string s).
Proof. induction s as [|c s IH]; simpl; [reflexivity|]. rewrite IH. reflexivity. Qed.

Lemma is_wild_lower (c : ascii) : is_wild (ascii_lower c) = is_wild c.
Proof. destruct c as [[] [] [] [] [] [] [] []]; reflexivity. Qed.

Lemma existsb_wild_lower (l : list ascii) :
  existsb is_wild (map ascii_lower l) = existsb is_wild l.
Proof. induction l as [|c l IH]; simpl; [reflexivity|]. rewrite is_wild_lower, IH. reflexivity. Qed.

Lemma like_pct_nil (p : list ascii) : like ("%"%char :: p) [] = like p [].
Proof. simpl. destruct (like p []); reflexivity. Qed.

Lemma like_pct_cons (p : list ascii) (a : ascii) (s : list ascii) :
  like ("%"%char :: p) (a :: s) = like p (a :: s) || like ("%"%char :: p) s.
Proof. reflexivity. Qed.

Lemma like_lit_cons (c : ascii) (p s : list ascii) :
  Ascii.eqb c "%"%char = false ->
  like (c :: p) s =
    match s with [] => false | d :: s' => (Ascii.eqb c "_"%char || Ascii.eqb c d) && like p s' end.
Proof. intro H. simpl. rewrite H. reflexivity. Qed.

Lemma like_pct_any (p s : list ascii) :
  like ("%"%char :: p) s = true <-> exists s1 s2, s = s1 ++ s2 /\ like p s2 = true.
Proof.
  induction s as [|a s IH].
  - rewrite like_pct_nil. split.
    + intro H. exists [], []. split; [reflexivity | exact H].
    + intros [s1 [s2 [Hs H]]]. destruct s1; [|discriminate]. destruct s2; [exact H | discriminate].
  - rewrite like_pct_cons, orb_true_iff, IH. split.
    + intros [H | [s1 [s2 [Hs H]]]].
      * exists [], (a :: s). split; [reflexivity | exact H].
      * exists (a :: s1), s2. split; [rewrite Hs; reflexivity | exact H].
    + intros [s1 [s2 [Hs H]]]. destruct s1 as [|b s1].
      * left. simpl in Hs. subst s2. exact H.
      * right. injection Hs as -> Hs. exists s1, s2. split; [exact Hs | exact H].
Qed.

Lemma like_pct_all (s : list ascii) : like ["%"%char] s = true.
Proof.
  apply like_pct_any. exists s, []. rewrite app_nil_r. split; reflexivity.
Qed.

Lemma like_lit_prefix (l s : list ascii) :
  existsb is_wild l = false ->
  (like (l ++ ["%"%char]) s = true <-> exists r, s = l ++ r).
Proof.
  revert s. induction l as [|c l IH]; intros s Hw.
  - simpl. split; [intros _; exists s; reflexivity | intros _; apply like_pct_all].
  - simpl in Hw. apply orb_false_iff in Hw. destruct Hw as [Hc Hw].
    unfold is_wild in Hc. apply orb_false_iff in Hc. destruct Hc as [Hpct Hund].
    change ((c :: l) ++ ["%"%char]) with (c :: (l ++ ["%"%char])).
    rewrite (like_lit_cons c (l ++ ["%"%char]) s Hpct), Hund. simpl.
    destruct s as [|d s].
    + split; [discriminate | intros [r Hr]; discriminate].
    + rewrite andb_true_iff, IH by exact Hw.
      destruct (Ascii.eqb_spec c d) as [<-|Hne].
      * split.
        -- intros [_ [r Hr]]. exists r. rewrite Hr. reflexivity.
        -- intros [r Hr]. injection Hr as Hr. split; [reflexivity | exists r; exact Hr].
      * split; [intros [H _]; discriminate | intros [r Hr]; injection Hr as Hr _; congruence].
Qed.

Lemma ilike_contains (title q : string) :
  has_like_wildcard q = false ->
  (ilike title (String.append "%" (String.append q "%")) = true <-> contains_ci q title).
Proof.
  intro Hw. unfold ilike, contains_ci.
  rewrite !lower_append, !list_ascii_append.
  change (list_ascii_of_string (lower "%")) with ["%"%char]. cbn [app].
  rewrite like_pct_any. unfold has_like_wildcard in Hw.
  assert (Hw' : existsb is_wild (list_ascii_of_string (lower q)) = false)
    by (rewrite list_ascii_lower, existsb_wild_lower; exact Hw).
  split.
  - intros [s1 [s2 [Hs H]]]. apply (like_lit_prefix _ _ Hw') in H. destruct H as [r Hr].
    exists s1, r. rewrite Hs, Hr. reflexivity.
  - intros [pre [post Hs]]. exists pre, (list_ascii_of_string (lower q) ++ post).
    split; [exact Hs|]. apply (like_lit_prefix _ _ Hw'). exists post. reflexivity.
Qed.

Lemma insert_desc_perm (p : Product.t) (l : list Product.t) :
  Permutation (insert_desc p l) (p :: l).
Proof.
  induction l as [|x l IH]; simpl; [reflexivity|].
  destruct (Product.created_at x <? Product.created_at p); [reflexivity|].
  rewrite IH. apply perm_swap.
Qed.

Lemma order_by_created_desc_perm (l : list Product.t) :
  Permutation (order_by_created_desc l) l.
Proof.
  induction l as [|x l IH]; simpl; [reflexivity|].
  rewrite insert_desc_perm. apply perm_skip. exact IH.
Qed.

Lemma insert_desc_hdrel (x p : Product.t) (l : list Product.t) :
  HdRel newer_first x l -> newer_first x p -> HdRel newer_first x (insert_desc p l).
Proof.
  intros Hh Hxp. destruct l as [|y l]; simpl; [constructor; exact Hxp|].
  destruct (Product.created_at y <? Product.created_at p); constructor; [exact Hxp|].
  inversion Hh; assumption.
Qed.

Lemma insert_desc_sorted (p : Product.t) (l : list Product.t) :
  Sorted newer_first l -> Sorted newer_first (insert_desc p l).
Proof.
  induction l as [|x l IH]; intro Hs; simpl; [repeat constructor|].
  destruct (Product.created_at x <? Product.created_at p) eqn:E.
  - apply Nat.ltb_lt in E. constructor; [exact Hs|]. constructor. unfold newer_first. lia.
  - apply Nat.ltb_ge in E. apply Sorted_inv in Hs. destruct Hs as [Hs Hh].
    constructor; [apply IH; exact Hs|]. apply insert_desc_hdrel; [exact Hh|]. exact E.
Qed.

Lemma order_by_created_desc_sorted (l : list Product.t) :
  Sorted newer_first (order_by_created_desc l).
Proof.
  induction l as [|x l IH]; simpl; [constructor|]. apply insert_desc_sorted. exact IH.
Qed.

Lemma sorted_filter (f : Product.t -> bool) (l : list Product.t) :
  Sorted newer_first l -> Sorted newer_first (filter f l).
Proof.
  intro Hs. apply StronglySorted_Sorted.
  apply Sorted_StronglySorted in Hs; [|intros a b c Hab Hbc; unfold newer_first in *; lia].
  induction Hs as [|a l Hs IH Hall]; simpl; [constructor|].
  destruct (f a); [|exact IH].
  constructor; [exact IH|].
  rewrite Forall_forall in *. intros x Hx. apply filter_In in Hx. apply Hall. exact (proj1 Hx).
Qed.

Lemma in_categories_nonempty (c : string) :
  negb (String.eqb c "") && in_categories c = in_categories c.
Proof. destruct (String.eqb_spec c ""); subst; reflexivity. Qed.

(** C8 fails as stated: the search text " kindle" (with a leading space)
    is stripped before the query, so the Kindle, whose title does not
    contain " kindle", is returned. *)
Lemma search_text_is_stripped :
  index st_listed " kindle" "" = [kindle] /\ ~ contains_ci " kindle" (Product.title kindle).
Proof.
  split; [vm_compute; reflexivity|].
  intros [pre [post H]]. vm_compute in H.
  do 17 (destruct pre as [|? pre]; simpl in H; try discriminate; try (injection H as ? H)).
  destruct pre; simpl in H; discriminate.
Qed.

(** C8 (amended): the listing strips surrounding whitespace from both
    arguments.  For every search text and category it is ordered newest
    first by [created_at], and a stripped category outside the closed set
    filters nothing (the listing is the one without a category).  When the
    stripped search text contains no [LIKE] wildcard ([%] or [_]), a stored
    product is listed exactly when: the stripped search text is empty or
    occurs in its title case-insensitively, and, if the stripped category is
    one of the closed set, its category is exactly that one. *)
Theorem index_spec (st : store) (q cat : string) :
  Sorted newer_first (index st q cat) /\
  (in_categories (strip cat) = false -> index st q cat = index st q "") /\
  (has_like_wildcard (strip q) = false ->
   forall p, In p (index st q cat) <->
     In p (products st) /\
     (strip q = EmptyString \/ contains_ci (strip q) (Product.title p)) /\
     (in_categories (strip cat) = true -> Product.category p = strip cat)).
Proof.
  unfold index. cbv zeta. rewrite !in_categories_nonempty.
  set (base := order_by_created_desc (products st)).
  set (byq := if negb (String.eqb (strip q) "")
              then filter (fun p => ilike (Product.title p) (String.append "%" (String.append (strip q) "%"))) base
              else base).
  assert (Hsq : Sorted newer_first byq).
  { unfold byq. destruct (negb _); [apply sorted_filter|]; apply order_by_created_desc_sorted. }
  split; [|split].
  - destruct (in_categories (strip cat)); [apply sorted_filter|]; exact Hsq.
  - intro Hc. rewrite Hc. reflexivity.
  - intro Hw.
    assert (Hbase : forall p, In p base <-> In p (products st)).
    { intro p. pose proof (order_by_created_desc_perm (products st)) as HP. split.
      - apply Permutation_in. exact HP.
      - apply Permutation_in. symmetry. exact HP. }
    assert (Hq : forall p, In p byq <-> In p (products st) /\
                   (strip q = EmptyString \/ contains_ci (strip q) (Product.title p))).
    { intro p. unfold byq. destruct (String.eqb_spec (strip q) "") as [He|Hne]; simpl.
      - rewrite Hbase. tauto.
      - rewrite filter_In, Hbase, (ilike_contains _ _ Hw). tauto. }
    destruct (in_categories (strip cat)) eqn:Hc.
    + intro p. rewrite filter_In, Hq, String.eqb_eq. split.
      * intros [[H1 H2] H3]. split; [exact H1|]. split; [exact H2|]. intros _; exact H3.
      * intros [H1 [H2 H3]]. split; [split; assumption|]. apply H3; reflexivity.
    + intro p. rewrite Hq. split.
      * intros [H1 H2]. split; [exact H1|]. split; [exact H2|]. discriminate.
      * intros [H1 [H2 _]]. split; assumption.
Qed.

Lemma index_spec_witness :
  has_like_wildcard (strip "Kindle ") = false /\
  In kindle (index st_listed "Kindle " "Electronics") /\
  index st_listed "" "Gadgets" = index st_listed "" "".
Proof.
  assert (Hw : has_like_wildcard (strip "Kindle ") = false) by (vm_compute; reflexivity).
  assert (Hc : in_categories (strip "Gadgets") = false) by (vm_compute; reflexivity).
  split; [exact Hw|]. split.
  - apply (proj2 (proj2 (index_spec st_listed "Kindle " "Electronics")) Hw kindle).
    split; [vm_compute; left; reflexivity|].
    split; [right; exists [], (list_ascii_of_string " paperwhite"); vm_compute; reflexivity|].
    intros _. vm_compute. reflexivity.
  - exact (proj1 (proj2 (index_spec st_listed "" "Gadgets")) Hc).
Defined.

(** * Further properties of the handlers *)

(** ** Which tables each handler writes *)

Ltac handler_cases :=
  repeat match goal with
         | |- context [match ?x with _ => _ end] => destruct x eqn:?
         end; simpl.

Lemma register_frame (gh : string -> string -> string) (st : store) (e p u salt : string) :
  let st' := snd (fst (register gh st e p u salt)) in
  products st' = products st /\ cart_items st' = cart_items st /\
  orders st' = orders st /\ order_items st' = order_items st.
Proof. unfold register. handler_cases; repeat split. Qed.

Lemma dashboard_post_frame (st : store) (uid : nat) (name : string) :
  let st' := snd (dashboard_post st uid name) in
  products st' = products st /\ cart_items st' = cart_items st /\
  orders st' = orders st /\ order_items st' = order_items st.
Proof. unfold dashboard_post. handler_cases; repeat split. Qed.

Lemma add_product_frame (st : store) (uid : nat) (f : product_form) :
  let st' := snd (add_product st uid f) in
  users st' = users st /\ cart_items st' = cart_items st /\
  orders st' = orders st /\ order_items st' = order_items st.
Proof. unfold add_product. handler_cases; repeat split. Qed.

Lemma edit_product_frame (st : store) (uid pid : nat) (f : product_form) :
  let st' := snd (edit_product st uid pid f) in
  users st' = users st /\ cart_items st' = cart_items st /\
  orders st' = orders st /\ order_items st' = order_items st.
Proof. unfold edit_product. handler_cases; repeat split. Qed.

Lemma delete_product_frame (st : store) (uid pid : nat) :
  let st' := snd (delete_product st uid pid) in
  users st' = users st /\ cart_items st' = cart_items st /\
  orders st' = orders st /\ order_items st' = order_items st.
Proof. unfold delete_product. handler_cases; repeat split. Qed.

Lemma cart_add_frame (st : store) (uid pid : nat) (q : option string) :
  let st' := snd (cart_add st uid pid q) in
  users st' = users st /\ products st' = products st /\
  orders st' = orders st /\ order_items st' = order_items st.
Proof. unfold cart_add. handler_cases; repeat split. Qed.

Lemma cart_update_frame (st : store) (uid cid : nat) (q : option string) :
  let st' := snd (cart_update st uid cid q) in
  users st' = users st /\ products st' = products st /\
  orders st' = orders st /\ order_items st' = order_items st.
Proof. unfold cart_update. handler_cases; repeat split. Qed.

Lemma cart_remove_frame (st : store) (uid cid : nat) :
  let st' := snd (cart_remove st uid cid) in
  users st' = users st /\ products st' = products st /\
  orders st' = orders st /\ order_items st' = order_items st.
Proof. unfold cart_remove. handler_cases; repeat split. Qed.

Lemma checkout_frame (st : store) (uid : nat) :
  let st' := snd (checkout st uid) in
  users st' = users st /\ products st' = products st.
Proof. unfold checkout. handler_cases; repeat split. Qed.

Lemma NoDup_map_filter {A B} (f : A -> B) (g : A -> bool) (l : list A) :
  NoDup (map f l) -> NoDup (map f (filter g l)).
Proof.
  induction l as [|a l IH]; intro H; simpl; [constructor|].
  simpl in H. apply NoDup_cons_iff in H. destruct H as [Hn Hd].
  destruct (g a); simpl; [|apply IH; exact Hd].
  constructor; [|apply IH; exact Hd].
  intro Hin. apply Hn. apply in_map_iff in Hin. destruct Hin as [x [Hx Hin]].
  apply filter_In in Hin. apply in_map_iff. exists x. split; [exact Hx | exact (proj1 Hin)].
Qed.

Lemma NoDup_snoc {A} (l : list A) (x : A) : NoDup l -> ~ In x l -> NoDup (l ++ [x]).
Proof.
  intros Hd Hn. apply NoDup_app; [exact Hd | constructor; [intros [] | constructor] |].
  intros a Ha [<-|[]]. exact (Hn Ha).
Qed.

(** ** Cart quantities stay at least 1 *)

Definition cart_quantities_positive (st : store) : Prop :=
  Forall (fun c => (1 <= CartItem.quantity c)%Z) (cart_items st).

Lemma cart_add_quantities (st : store) (uid pid : nat) (q : option string) :
  cart_quantities_positive st -> cart_quantities_positive (snd (cart_add st uid pid q)).
Proof.
  unfold cart_quantities_positive. intro H. unfold cart_add. handler_cases; try exact H.
  - apply Forall_map. refine (Forall_impl _ _ H). intros c Hc.
    unfold bump. destruct (_ =? _); simpl; lia.
  - apply Forall_app. split; [exact H|]. constructor; [simpl; lia | constructor].
Qed.

Lemma cart_update_quantities (st : store) (uid cid : nat) (q : option string) :
  cart_quantities_positive st -> cart_quantities_positive (snd (cart_update st uid cid q)).
Proof.
  unfold cart_quantities_positive. intro H. unfold cart_update. handler_cases; try exact H.
  apply Forall_map. refine (Forall_impl _ _ H). intros c Hc.
  unfold set_quantity. destruct (CartItem.id c =? cid); cbn [CartItem.quantity]; lia.
Qed.

Lemma cart_remove_quantities (st : store) (uid cid : nat) :
  cart_quantities_positive st -> cart_quantities_positive (snd (cart_remove st uid cid)).
Proof.
  unfold cart_quantities_positive. intro H. unfold cart_remove. handler_cases; try exact H.
  rewrite Forall_forall in *. intros c Hc. apply filter_In in Hc. exact (H c (proj1 Hc)).
Qed.

Lemma checkout_quantities (st : store) (uid : nat) :
  cart_quantities_positive st -> cart_quantities_positive (snd (checkout st uid)).
Proof.
  unfold cart_quantities_positive. intro H. unfold checkout. handler_cases; try exact H.
  rewrite Forall_forall in *. intros c Hc. apply filter_In in Hc. exact (H c (proj1 Hc)).
Qed.

Lemma step_quantities (gh : string -> string -> string) (st : store) (r : request) :
  cart_quantities_positive st -> cart_quantities_positive (step gh st r).
Proof.
  intro H. unfold cart_quantities_positive in *.
  destruct r; simpl step.
  - destruct (register_frame gh st email password username salt) as [_ [E _]]. rewrite E. exact H.
  - destruct (dashboard_post_frame st uid username) as [_ [E _]]. rewrite E. exact H.
  - destruct (add_product_frame st uid f) as [_ [E _]]. rewrite E. exact H.
  - destruct (edit_product_frame st uid pid f) as [_ [E _]]. rewrite E. exact H.
  - destruct (delete_product_frame st uid pid) as [_ [E _]]. rewrite E. exact H.
  - apply cart_add_quantities. exact H.
  - apply cart_update_quantities. exact H.
  - apply cart_remove_quantities. exact H.
  - apply checkout_quantities. exact H.
Qed.

(** Every cart line keeps a quantity of at least 1 through any sequence of
    requests: [cart_add] and [cart_update] floor the requested quantity at
    1, and the other handlers only delete lines or leave the cart alone. *)
Theorem run_keeps_quantities_positive (gh : string -> string -> string) (st : store)
    (rs : list request) (H : cart_quantities_positive st) :
  cart_quantities_positive (run_requests gh st rs).
Proof.
  unfold run_requests. revert st H.
  induction rs as [|r rs IH]; intros st H; simpl; [exact H|].
  apply IH. apply step_quantities. exact H.
Qed.

Lemma run_keeps_quantities_positive_witness :
  cart_quantities_positive st_users /\
  cart_quantities_positive
    (run_requests identity_hash st_users
       [RAddProduct 1 kindle_form; RCartAdd 2 1 (Some "-7"%string); RCartUpdate 2 1 (Some "0"%string)]).
Proof.
  assert (H : cart_quantities_positive st_users) by constructor.
  split; [exact H|]. apply run_keeps_quantities_positive. exact H.
Defined.

(** ** At most one cart line per (user, product) *)

Definition cart_line_key (c : CartItem.t) : nat * nat := (CartItem.user_id c, CartItem.product_id c).

Definition cart_lines_unique (st : store) : Prop := NoDup (map cart_line_key (cart_items st)).

Lemma find_none_forall {A} (f : A -> bool) (l : list A) :
  find f l = None -> forall x, In x l -> f x = false.
Proof.
  induction l as [|a l IH]; simpl; [intros _ x []|].
  destruct (f a) eqn:E; [discriminate|]. intros H x [<-|Hx]; [exact E | exact (IH H x Hx)].
Qed.

Lemma cart_add_unique (st : store) (uid pid : nat) (q : option string) :
  cart_lines_unique st -> cart_lines_unique (snd (cart_add st uid pid q)).
Proof.
  unfold cart_lines_unique. intro H. unfold cart_add. handler_cases; try exact H.
  - rewrite map_map.
    replace (map (fun x => cart_line_key (bump (CartItem.id t0) (Z.max 1 z) x)) (cart_items st))
      with (map cart_line_key (cart_items st)); [exact H|].
    apply map_ext. intro c. unfold bump. destruct (CartItem.id c =? CartItem.id t0); reflexivity.
  - rewrite map_app. apply NoDup_snoc; [exact H|].
    intro Hin. apply in_map_iff in Hin. destruct Hin as [c [Hc Hin]].
    pose proof (find_none_forall _ _ Heqo1 c Hin) as Hf.
    unfold cart_line_of in Hf. unfold cart_line_key in Hc. simpl in Hc.
    injection Hc as Hu Hp. rewrite Hu, Hp, !Nat.eqb_refl in Hf. discriminate.
Qed.

Lemma cart_update_unique (st : store) (uid cid : nat) (q : option string) :
  cart_lines_unique st -> cart_lines_unique (snd (cart_update st uid cid q)).
Proof.
  unfold cart_lines_unique. intro H. unfold cart_update. handler_cases; try exact H.
  rewrite map_map.
  replace (map (fun x => cart_line_key (set_quantity cid (Z.max 1 z) x)) (cart_items st))
    with (map cart_line_key (cart_items st)); [exact H|].
  apply map_ext. intro c. unfold set_quantity. destruct (CartItem.id c =? cid); reflexivity.
Qed.

Lemma cart_remove_unique (st : store) (uid cid : nat) :
  cart_lines_unique st -> cart_lines_unique (snd (cart_remove st uid cid)).
Proof.
  unfold cart_lines_unique. intro H. unfold cart_remove. handler_cases; try exact H.
  apply NoDup_map_filter. exact H.
Qed.

Lemma checkout_unique (st : store) (uid : nat) :
  cart_lines_unique st -> cart_lines_unique (snd (checkout st uid)).
Proof.
  unfold cart_lines_unique. intro H. unfold checkout. handler_cases; try exact H.
  apply NoDup_map_filter. exact H.
Qed.

Lemma step_unique (gh : string -> string -> string) (st : store) (r : request) :
  cart_lines_unique st -> cart_lines_unique (step gh st r).
Proof.
  intro H. unfold cart_lines_unique in *.
  destruct r; simpl step.
  - destruct (register_frame gh st email password username salt) as [_ [E _]]. rewrite E. exact H.
  - destruct (dashboard_post_frame st uid username) as [_ [E _]]. rewrite E. exact H.
  - destruct (add_product_frame st uid f) as [_ [E _]]. rewrite E. exact H.
  - destruct (edit_product_frame st uid pid f) as [_ [E _]]. rewrite E. exact H.
  - destruct (delete_product_frame st uid pid) as [_ [E _]]. rewrite E. exact H.
  - apply cart_add_unique. exact H.
  - apply cart_update_unique. exact H.
  - apply cart_remove_unique. exact H.
  - apply checkout_unique. exact H.
Qed.

(** A user never has two cart lines for the same product: adding a
    product already in the cart increments the existing line, and no other
    request creates lines or changes their user or product. *)
Theorem run_keeps_cart_lines_unique (gh : string -> string -> string) (st : store)
    (rs : list request) (H : cart_lines_unique st) :
  cart_lines_unique (run_requests gh st rs).
Proof.
  unfold run_requests. revert st H.
  induction rs as [|r rs IH]; intros st H; simpl; [exact H|].
  apply IH. apply step_unique. exact H.
Qed.

Lemma run_keeps_cart_lines_unique_witness :
  cart_lines_unique st_users /\
  cart_lines_unique
    (run_requests identity_hash st_users
       [RAddProduct 1 kindle_form; RCartAdd 2 1 None; RCartAdd 2 1 (Some "3"%string)]).
Proof.
  assert (H : cart_lines_unique st_users) by constructor.
  split; [exact H|]. apply run_keeps_cart_lines_unique. exact H.
Defined.

(** ** Product ids stay unique *)

Definition product_ids_unique (st : store) : Prop := NoDup (map Product.id (products st)).

Lemma add_product_ids (st : store) (uid : nat) (f : product_form) :
  product_ids_unique st -> product_ids_unique (snd (add_product st uid f)).
Proof.
  unfold product_ids_unique. intro H. unfold add_product. handler_cases; try exact H.
  rewrite map_app. apply NoDup_snoc; [exact H | apply fresh_id_not_in].
Qed.

Lemma edit_product_ids (st : store) (uid pid : nat) (f : product_form) :
  product_ids_unique st -> product_ids_unique (snd (edit_product st uid pid f)).
Proof.
  unfold product_ids_unique. intro H. unfold edit_product. handler_cases; try exact H.
  rewrite map_map.
  match goal with |- NoDup (map ?g _) =>
    replace (map g (products st)) with (map Product.id (products st)); [exact H|] end.
  apply map_ext. intro x. destruct (Product.id x =? pid); reflexivity.
Qed.

Lemma delete_product_ids (st : store) (uid pid : nat) :
  product_ids_unique st -> product_ids_unique (snd (delete_product st uid pid)).
Proof.
  unfold product_ids_unique. intro H. unfold delete_product. handler_cases; try exact H.
  apply NoDup_map_filter. exact H.
Qed.

Lemma step_product_ids (gh : string -> string -> string) (st : store) (r : request) :
  product_ids_unique st -> product_ids_unique (step gh st r).
Proof.
  intro H. unfold product_ids_unique in *.
  destruct r; simpl step.
  - destruct (register_frame gh st email password username salt) as [E _]. rewrite E. exact H.
  - destruct (dashboard_post_frame st uid username) as [E _]. rewrite E. exact H.
  - apply add_product_ids. exact H.
  - apply edit_product_ids. exact H.
  - apply delete_product_ids. exact H.
  - destruct (cart_add_frame st uid pid qty) as [_ [E _]]. rewrite E. exact H.
  - destruct (cart_update_frame st uid cid qty) as [_ [E _]]. rewrite E. exact H.
  - destruct (cart_remove_frame st uid cid) as [_ [E _]]. rewrite E. exact H.
  - destruct (checkout_frame st uid) as [_ E]. rewrite E. exact H.
Qed.

(** Product ids stay pairwise distinct through any sequence of requests:
    a new product gets one more than the largest id, an edit keeps the id
    and a deletion only removes rows. *)
Theorem run_keeps_product_ids_unique (gh : string -> string -> string) (st : store)
    (rs : list request) (H : product_ids_unique st) :
  product_ids_unique (run_requests gh st rs).
Proof.
  unfold run_requests. revert st H.
  induction rs as [|r rs IH]; intros st H; simpl; [exact H|].
  apply IH. apply step_product_ids. exact H.
Qed.

Lemma run_keeps_product_ids_unique_witness :
  product_ids_unique st_users /\
  product_ids_unique
    (run_requests identity_hash st_users
       [RAddProduct 1 kindle_form; RAddProduct 1 lamp_negative_form; RDeleteProduct 1 1;
        RAddProduct 2 kindle_form]).
Proof.
  assert (H : product_ids_unique st_users) by constructor.
  split; [exact H|]. apply run_keeps_product_ids_unique. exact H.
Defined.

(** ** Registered emails stay unique *)

Definition emails_unique (st : store) : Prop := NoDup (map User.email (users st)).

Lemma register_emails (gh : string -> string -> string) (st : store) (e p u salt : string) :
  emails_unique st -> emails_unique (snd (fst (register gh st e p u salt))).
Proof.
  unfold emails_unique. intro H. unfold register. handler_cases; try exact H.
  rewrite map_app. apply NoDup_snoc; [exact H|].
  intro Hin. apply in_map_iff in Hin. destruct Hin as [x [Hx Hin]].
  match goal with Hn : find_user_by_email _ _ = None |- _ =>
    unfold find_user_by_email in Hn; pose proof (find_none_forall _ _ Hn x Hin) as Hf end.
  cbv beta in Hf. rewrite Hx, String.eqb_refl in Hf. discriminate.
Qed.

Lemma dashboard_post_emails (st : store) (uid : nat) (name : string) :
  emails_unique st -> emails_unique (snd (dashboard_post st uid name)).
Proof.
  unfold emails_unique. intro H. unfold dashboard_post. handler_cases; try exact H.
  rewrite map_map.
  match goal with |- NoDup (map ?g _) =>
    replace (map g (users st)) with (map User.email (users st)); [exact H|] end.
  apply map_ext. intro x. destruct (User.id x =? uid); reflexivity.
Qed.

Lemma step_emails (gh : string -> string -> string) (st : store) (r : request) :
  emails_unique st -> emails_unique (step gh st r).
Proof.
  intro H. unfold emails_unique in *.
  destruct r; simpl step.
  - apply register_emails. exact H.
  - apply dashboard_post_emails. exact H.
  - destruct (add_product_frame st uid f) as [E _]. rewrite E. exact H.
  - destruct (edit_product_frame st uid pid f) as [E _]. rewrite E. exact H.
  - destruct (delete_product_frame st uid pid) as [E _]. rewrite E. exact H.
  - destruct (cart_add_frame st uid pid qty) as [E _]. rewrite E. exact H.
  - destruct (cart_update_frame st uid cid qty) as [E _]. rewrite E. exact H.
  - destruct (cart_remove_frame st uid cid) as [E _]. rewrite E. exact H.
  - destruct (checkout_frame st uid) as [E _]. rewrite E. exact H.
Qed.

(** No two users ever share an email: [register] creates a user only when
    no user has the normalised email, and no other request changes emails. *)
Theorem run_keeps_emails_unique (gh : string -> string -> string) (st : store)
    (rs : list request) (H : emails_unique st) :
  emails_unique (run_requests gh st rs).
Proof.
  unfold run_requests. revert st H.
  induction rs as [|r rs IH]; intros st H; simpl; [exact H|].
  apply IH. apply step_emails. exact H.
Qed.

Lemma run_keeps_emails_unique_witness :
  emails_unique st_users /\
  emails_unique
    (run_requests identity_hash st_users
       [RRegister "carol@example.org" "pw" "carol" "s1"; RRegister " CAROL@example.org" "pw2" "c2" "s2";
        RDashboard 3 "Caroline"]).
Proof.
  assert (H : emails_unique st_users) by (constructor; [intros [H|[]]; discriminate | repeat constructor; intros []]).
  split; [exact H|]. apply run_keeps_emails_unique. exact H.
Defined.

(** ** Orders agree with their items *)

(** Order ids are distinct, every order item points at an existing order,
    and each order's [total_amount] is the sum of price times quantity over
    its items, as SQLite stores it ([NULL] when that sum is NaN). *)
Definition orders_consistent (st : store) : Prop :=
  NoDup (map Order.id (orders st)) /\
  Forall (fun oi => In (OrderItem.order_id oi) (map Order.id (orders st))) (order_items st) /\
  Forall (fun o => Order.total_amount o =
                   stored_real (order_items_total (filter (fun oi => OrderItem.order_id oi =? Order.id o)
                                             (order_items st))))
         (orders st).

Lemma filter_all_false {A} (f : A -> bool) (l : list A) :
  (forall x, In x l -> f x = false) -> filter f l = [].
Proof.
  induction l as [|a l IH]; intro H; simpl; [reflexivity|].
  rewrite (H a (or_introl eq_refl)). apply IH. intros x Hx. exact (H x (or_intror Hx)).
Qed.

Lemma filter_all_true {A} (f : A -> bool) (l : list A) :
  (forall x, In x l -> f x = true) -> filter f l = l.
Proof.
  induction l as [|a l IH]; intro H; simpl; [reflexivity|].
  rewrite (H a (or_introl eq_refl)). f_equal. apply IH. intros x Hx. exact (H x (or_intror Hx)).
Qed.

Lemma checkout_loop_order (prods : list Product.t) (oid : nat) (items : list CartItem.t) :
  forall next total t ois,
  checkout_loop prods oid next total items = Some (t, ois) ->
  Forall (fun oi => OrderItem.order_id oi = oid) ois /\
  t = fold_left (fun t oi => (t + OrderItem.product_price oi * z_to_float (OrderItem.quantity oi))%float)
        ois total.
Proof.
  induction items as [|c items IH]; intros next total t ois H; simpl in H.
  - injection H as <- <-. split; [constructor | reflexivity].
  - destruct (find (fun p => Product.id p =? CartItem.product_id c) prods) as [p|]; [|discriminate].
    destruct (checkout_loop prods oid (S next)
                (total + Product.price p * z_to_float (CartItem.quantity c))%float items)
      as [[t' ois']|] eqn:E; [|discriminate].
    injection H as <- <-. destruct (IH _ _ _ _ E) as [Ho Ht].
    split; [constructor; [reflexivity | exact Ho]|]. exact Ht.
Qed.

Lemma orders_consistent_frame (st st' : store) :
  orders st' = orders st -> order_items st' = order_items st ->
  orders_consistent st -> orders_consistent st'.
Proof. unfold orders_consistent. intros -> ->. exact (fun H => H). Qed.

Lemma checkout_orders_consistent (st : store) (uid : nat) :
  orders_consistent st -> orders_consistent (snd (checkout st uid)).
Proof.
  intro H. unfold checkout.
  destruct (is_nil (user_cart st uid)); [exact H|].
  set (oid := fresh_id (map Order.id (orders st))).
  destruct (checkout_loop (products st) oid (fresh_id (map OrderItem.id (order_items st))) zero
              (user_cart st uid)) as [[t ois]|] eqn:E; [|exact H].
  destruct (checkout_loop_order _ _ _ _ _ _ _ E) as [Hoid Ht].
  assert (Hfresh : ~ In oid (map Order.id (orders st))) by apply fresh_id_not_in.
  unfold orders_consistent in *. simpl. destruct H as [Hnd [Hin Htot]].
  split; [|split].
  - rewrite map_app. apply NoDup_snoc; [exact Hnd | exact Hfresh].
  - rewrite map_app. apply Forall_app. split.
    + eapply Forall_impl; [|exact Hin]. intros oi Hi. apply in_or_app. left. exact Hi.
    + eapply Forall_impl; [|exact Hoid]. intros oi Hi. apply in_or_app. right.
      left. symmetry. exact Hi.
  - rewrite Forall_forall in Hoid, Hin, Htot.
    apply Forall_app. split.
    + rewrite Forall_forall. intros o Ho. rewrite filter_app.
      rewrite (filter_all_false _ ois); [rewrite app_nil_r; exact (Htot o Ho)|].
      intros oi Hi. rewrite (Hoid oi Hi). apply Nat.eqb_neq. intro He.
      apply Hfresh. rewrite He. apply in_map. exact Ho.
    + constructor; [|constructor]. simpl. rewrite filter_app.
      rewrite (filter_all_false _ (order_items st)).
      * rewrite (filter_all_true _ ois); [unfold order_items_total; rewrite Ht; reflexivity|].
        intros oi Hi. rewrite (Hoid oi Hi). apply Nat.eqb_refl.
      * intros oi Hi. apply Nat.eqb_neq. intro He. apply Hfresh. rewrite <- He. exact (Hin oi Hi).
Qed.

Lemma step_orders_consistent (gh : string -> string -> string) (st : store) (r : request) :
  orders_consistent st -> orders_consistent (step gh st r).
Proof.
  intro H. destruct r; simpl step.
  - destruct (register_frame gh st email password username salt) as [_ [_ [E1 E2]]].
    exact (orders_consistent_frame _ _ E1 E2 H).
  - destruct (dashboard_post_frame st uid username) as [_ [_ [E1 E2]]].
    exact (orders_consistent_frame _ _ E1 E2 H).
  - destruct (add_product_frame st uid f) as [_ [_ [E1 E2]]].
    exact (orders_consistent_frame _ _ E1 E2 H).
  - destruct (edit_product_frame st uid pid f) as [_ [_ [E1 E2]]].
    exact (orders_consistent_frame _ _ E1 E2 H).
  - destruct (delete_product_frame st uid pid) as [_ [_ [E1 E2]]].
    exact (orders_consistent_frame _ _ E1 E2 H).
  - destruct (cart_add_frame st uid pid qty) as [_ [_ [E1 E2]]].
    exact (orders_consistent_frame _ _ E1 E2 H).
  - destruct (cart_update_frame st uid cid qty) as [_ [_ [E1 E2]]].
    exact (orders_consistent_frame _ _ E1 E2 H).
  - destruct (cart_remove_frame st uid cid) as [_ [_ [E1 E2]]].
    exact (orders_consistent_frame _ _ E1 E2 H).
  - apply checkout_orders_consistent. exact H.
Qed.

(** Through any sequence of requests, order ids stay distinct, every order
    item belongs to an existing order, and every order's stored total is
    the sum of price times quantity over its own items. *)
Theorem run_keeps_orders_consistent (gh : string -> string -> string) (st : store)
    (rs : list request) (H : orders_consistent st) :
  orders_consistent (run_requests gh st rs).
Proof.
  unfold run_requests. revert st H.
  induction rs as [|r rs IH]; intros st H; simpl; [exact H|].
  apply IH. apply step_orders_consistent. exact H.
Qed.

Lemma run_keeps_orders_consistent_witness :
  orders_consistent st_users /\
  orders_consistent
    (run_requests identity_hash st_users
       [RAddProduct 1 kindle_form; RCartAdd 2 1 (Some "2"%string); RCheckout 2;
        RCartAdd 2 1 None; RCheckout 2]).
Proof.
  assert (H : orders_consistent st_users) by (repeat split; constructor).
  split; [exact H|]. apply run_keeps_orders_consistent. exact H.
Defined.

(** ** Checkout, the cart page and a second checkout *)

Lemma checkout_ok_clears (st st' : store) (uid : nat) :
  checkout st uid = (Ok, st') -> user_cart st' uid = [].
Proof.
  unfold checkout. destruct (is_nil (user_cart st uid)); [discriminate|].
  destruct (checkout_loop _ _ _ _ _) as [[t ois]|]; [|discriminate].
  intro H. injection H as <-. unfold user_cart. simpl cart_items.
  apply user_cart_cleared. intros c Hin Hu. unfold user_cart. apply filter_In.
  split; [exact Hin | apply Nat.eqb_eq; exact Hu].
Qed.

(** Submitting checkout a second time (a double click) changes nothing:
    after a successful checkout the user's cart is empty, so the next one
    only flashes the empty-cart error. *)
Theorem checkout_twice (st st' : store) (uid : nat) (H : checkout st uid = (Ok, st')) :
  checkout st' uid = (Fail ValidationError "Your cart is empty.", st').
Proof.
  unfold checkout at 1. rewrite (checkout_ok_clears st st' uid H). reflexivity.
Qed.

Lemma checkout_twice_witness :
  checkout st_carted 2 = (Ok, snd (checkout st_carted 2)) /\
  checkout (snd (checkout st_carted 2)) 2 =
    (Fail ValidationError "Your cart is empty.", snd (checkout st_carted 2)).
Proof.
  assert (H : checkout st_carted 2 = (Ok, snd (checkout st_carted 2))) by (vm_compute; reflexivity).
  split; [exact H|]. exact (checkout_twice _ _ _ H).
Defined.

Lemma line_amounts_checkout_loop (prods : list Product.t) (oid : nat) (items : list CartItem.t) :
  forall next acc,
  match line_amounts prods items with
  | None => checkout_loop prods oid next acc items = None
  | Some xs => exists ois,
      checkout_loop prods oid next acc items = Some (fold_left (fun t x => (t + x)%float) xs acc, ois)
  end.
Proof.
  induction items as [|c items IH]; intros next acc; simpl; [exists []; reflexivity|].
  destruct (find (fun p => Product.id p =? CartItem.product_id c) prods) as [p|]; [|reflexivity].
  specialize (IH (S next) (acc + Product.price p * z_to_float (CartItem.quantity c))%float).
  destruct (line_amounts prods items) as [xs|].
  - destruct IH as [ois E]. rewrite E. eexists. reflexivity.
  - rewrite IH. reflexivity.
Qed.

(** The subtotal of the cart page is CPython's compensated [sum], the order
    total a plain left-to-right sum: for line amounts 0.1, 0.2 and 0.3 the
    page shows 0.6 and the order stores 0.6000000000000001. *)
Lemma subtotal_is_compensated :
  py_sum [0.1%float; 0.2%float; 0.3%float] = NFloat 0.6%float /\
  fold_left (fun t x => (t + x)%float) [0.1%float; 0.2%float; 0.3%float] zero = 0.6000000000000001%float.
Proof. split; vm_compute; reflexivity. Qed.


(** ** Listing pages *)

(** The dashboard lists exactly the current user's products, newest first. *)
Theorem dashboard_products_spec (st : store) (uid : nat) :
  Sorted newer_first (dashboard_products st uid) /\
  forall p, In p (dashboard_products st uid) <-> In p (products st) /\ Product.seller_id p = uid.
Proof.
  unfold dashboard_products. split; [apply order_by_created_desc_sorted|].
  intro p. split.
  - intro Hin. apply (Permutation_in _ (order_by_created_desc_perm _)) in Hin.
    apply filter_In in Hin. destruct Hin as [Hin Hs]. split; [exact Hin | apply Nat.eqb_eq; exact Hs].
  - intros [Hin Hs]. apply (Permutation_in _ (Permutation_sym (order_by_created_desc_perm _))).
    apply filter_In. split; [exact Hin | apply Nat.eqb_eq; exact Hs].
Qed.

Definition placed_later (a b : Order.t) : Prop := Order.created_at b <= Order.created_at a.

Lemma insert_order_desc_perm (o : Order.t) (l : list Order.t) :
  Permutation (insert_order_desc o l) (o :: l).
Proof.
  induction l as [|x l IH]; simpl; [reflexivity|].
  destruct (Order.created_at x <? Order.created_at o); [reflexivity|].
  rewrite IH. apply perm_swap.
Qed.

Lemma insert_order_desc_sorted (o : Order.t) (l : list Order.t) :
  Sorted placed_later l -> Sorted placed_later (insert_order_desc o l).
Proof.
  induction l as [|x l IH]; intro Hs; simpl; [repeat constructor|].
  destruct (Order.created_at x <? Order.created_at o) eqn:E.
  - apply Nat.ltb_lt in E. constructor; [exact Hs|]. constructor. unfold placed_later. lia.
  - apply Nat.ltb_ge in E. apply Sorted_inv in Hs. destruct Hs as [Hs Hh].
    constructor; [apply IH; exact Hs|].
    destruct l as [|y l]; simpl; [constructor; exact E|].
    destruct (Order.created_at y <? Order.created_at o); constructor; [exact E|].
    inversion Hh; assumption.
Qed.

(** The purchases page lists exactly the current user's orders, latest
    first. *)
Theorem purchases_spec (st : store) (uid : nat) :
  Sorted placed_later (purchases st uid) /\
  forall o, In o (purchases st uid) <-> In o (orders st) /\ Order.user_id o = uid.
Proof.
  unfold purchases.
  assert (Hp : forall l : list Order.t, Permutation (fold_right insert_order_desc [] l) l).
  { induction l as [|x l IH]; simpl; [reflexivity|].
    rewrite insert_order_desc_perm. apply perm_skip. exact IH. }
  split.
  - induction (filter _ (orders st)) as [|x l IH]; simpl; [constructor|].
    apply insert_order_desc_sorted. exact IH.
  - intro o. split.
    + intro Hin. apply (Permutation_in _ (Hp _)) in Hin.
      apply filter_In in Hin. destruct Hin as [Hin Hs]. split; [exact Hin | apply Nat.eqb_eq; exact Hs].
    + intros [Hin Hs]. apply (Permutation_in _ (Permutation_sym (Hp _))).
      apply filter_In. split; [exact Hin | apply Nat.eqb_eq; exact Hs].
Qed.

(** ** Removing a cart line *)


(** ** Renaming on the dashboard *)


(** ** Login *)


(** ** Stripping and lower-casing *)

Lemma lstrip_head (s : string) :
  lstrip s = EmptyString \/ exists c s', lstrip s = String c s' /\ is_space c = false.
Proof.
  induction s as [|c s IH]; simpl; [left; reflexivity|].
  destruct (is_space c) eqn:E; [exact IH|]. right. exists c, s. split; [reflexivity | exact E].
Qed.

Lemma rstrip_head (c : ascii) (s : string) :
  is_space c = false -> rstrip (String c s) = String c (rstrip s).
Proof. intro H. simpl. rewrite H. reflexivity. Qed.

Lemma rstrip_idem (s : string) : rstrip (rstrip s) = rstrip s.
Proof.
  induction s as [|c s IH]; [reflexivity|]. simpl.
  destruct (is_space c && String.eqb (rstrip s) EmptyString) eqn:E; [reflexivity|].
  simpl. rewrite IH, E. reflexivity.
Qed.

Lemma strip_idem (s : string) : strip (strip s) = strip s.
Proof.
  unfold strip. destruct (lstrip_head s) as [E | [c [s' [E Hc]]]]; rewrite E; [reflexivity|].
  rewrite (rstrip_head c s' Hc). simpl lstrip. rewrite Hc.
  rewrite <- (rstrip_head c s' Hc). apply rstrip_idem.
Qed.

Lemma is_space_lower (c : ascii) : is_space (ascii_lower c) = is_space c.
Proof. destruct c as [[] [] [] [] [] [] [] []]; reflexivity. Qed.

Lemma ascii_lower_idem (c : ascii) : ascii_lower (ascii_lower c) = ascii_lower c.
Proof. destruct c as [[] [] [] [] [] [] [] []]; reflexivity. Qed.

Lemma lower_idem (s : string) : lower (lower s) = lower s.
Proof. induction s as [|c s IH]; simpl; [reflexivity|]. rewrite IH, ascii_lower_idem. reflexivity. Qed.

Lemma lower_empty (s : string) : String.eqb (lower s) EmptyString = String.eqb s EmptyString.
Proof. destruct s; reflexivity. Qed.

Lemma lstrip_lower (s : string) : lstrip (lower s) = lower (lstrip s).
Proof.
  induction s as [|c s IH]; simpl; [reflexivity|].
  rewrite is_space_lower. destruct (is_space c); [exact IH | reflexivity].
Qed.

Lemma rstrip_lower (s : string) : rstrip (lower s) = lower (rstrip s).
Proof.
  induction s as [|c s IH]; simpl; [reflexivity|].
  rewrite IH, is_space_lower, lower_empty.
  destruct (is_space c && String.eqb (rstrip s) EmptyString); reflexivity.
Qed.

Lemma strip_lower (s : string) : strip (lower s) = lower (strip s).
Proof. unfold strip. rewrite lstrip_lower, rstrip_lower. reflexivity. Qed.

(** Logging in with credentials that are already normalised (stripped,
    email lower-cased) gives exactly the same result as with the raw input:
    the normalisation done by [login] is idempotent. *)
Theorem login_normalised (check_hash : string -> string -> bool) (st : store) (e p : string) :
  login check_hash st (lower (strip e)) (strip p) = login check_hash st e p.
Proof.
  unfold login. rewrite strip_lower, strip_idem, lower_idem, strip_idem. reflexivity.
Qed.

(** ** New products *)

Lemma image_form_image (f : product_form) (p : Product.t) :
  Product.image_url p = Some (form_image f) -> Product.image p = form_image f.
Proof.
  intro H. unfold Product.image. rewrite H. unfold form_image.
  destruct (String.eqb (strip (f_image_url f)) "") eqn:E.
  - vm_compute. reflexivity.
  - rewrite E. apply strip_idem.
Qed.

(** A successful [add_product] appends one product with a fresh id, sold
    by the current user, holding the stripped title, description and
    category and the parsed price (never NaN, and stored as SQLite does:
    [-0.0] reads back as [0.0]); its [image()] is the stripped URL, or the
    placeholder when the URL field was blank. *)
Theorem add_product_creates (st st' : store) (uid : nat) (f : product_form)
    (H : add_product st uid f = (Ok, st')) :
  exists p, products st' = products st ++ [p] /\
    ~ In (Product.id p) (map Product.id (products st)) /\
    Product.seller_id p = uid /\
    Product.title p = strip (f_title f) /\ Product.description p = strip (f_description f) /\
    Product.category p = strip (f_category f) /\ in_categories (Product.category p) = true /\
    (exists v, py_float (strip (f_price f)) = Some v /\ is_nan v = false /\
               Product.price p = db_real v) /\
    Product.image p = form_image f.
Proof.
  unfold add_product in H. destruct (form_invalid f) eqn:Hf; [discriminate|].
  destruct (py_float (strip (f_price f))) as [v|] eqn:Hv; [|discriminate].
  destruct (is_nan v) eqn:Hn; [discriminate|].
  injection H as <-. eexists. split; [reflexivity|].
  split; [apply fresh_id_not_in|]. split; [reflexivity|]. split; [reflexivity|].
  split; [reflexivity|]. split; [reflexivity|]. split.
  - unfold form_invalid in Hf. simpl.
    destruct (in_categories (strip (f_category f))); [reflexivity|].
    simpl in Hf. rewrite orb_true_r in Hf. discriminate.
  - split; [exists v; split; [reflexivity|]; split; [exact Hn | reflexivity]|].
    apply image_form_image. reflexivity.
Qed.

Lemma add_product_creates_witness :
  add_product st_users 1 kindle_form = (Ok, snd (add_product st_users 1 kindle_form)) /\
  exists p, products (snd (add_product st_users 1 kindle_form)) = products st_users ++ [p] /\
            Product.image p = form_image kindle_form.
Proof.
  assert (H : add_product st_users 1 kindle_form = (Ok, snd (add_product st_users 1 kindle_form)))
    by (vm_compute; reflexivity).
  split; [exact H|].
  destruct (add_product_creates _ _ _ _ H) as [p [E [_ [_ [_ [_ [_ [_ [_ Hi]]]]]]]]].
  exists p. split; [exact E | exact Hi].
Defined.

(** A successful [edit_product] was requested by the seller of the product;
    it rewrites only the rows with that id, keeping their id, creation time
    and seller, and gives them the stripped title and the form's image;
    every other product is left as it was. *)
Theorem edit_product_owner (st st' : store) (uid pid : nat) (f : product_form)
    (H : edit_product st uid pid f = (Ok, st')) :
  (exists p, find_product st pid = Some p /\ Product.seller_id p = uid) /\
  Forall2 (fun p p' =>
             Product.id p' = Product.id p /\ Product.created_at p' = Product.created_at p /\
             Product.seller_id p' = Product.seller_id p /\
             (Product.id p = pid -> Product.title p' = strip (f_title f) /\
                                    Product.image p' = form_image f) /\
             (Product.id p <> pid -> p' = p))
          (products st) (products st').
Proof.
  unfold edit_product in H. destruct (find_product st pid) as [p|] eqn:Hf; [|discriminate].
  destruct (negb (Product.seller_id p =? uid)) eqn:Hs; [discriminate|].
  destruct (form_invalid f); [discriminate|].
  destruct (py_float (strip (f_price f))) as [v|]; [|discriminate].
  destruct (is_nan v); [discriminate|].
  injection H as <-. split.
  - exists p. split; [reflexivity|]. apply negb_false_iff, Nat.eqb_eq in Hs. exact Hs.
  - simpl. induction (products st) as [|x l IH]; simpl; constructor; [|exact IH].
    destruct (Product.id x =? pid) eqn:E.
    + apply Nat.eqb_eq in E. simpl. split; [reflexivity|]. split; [reflexivity|].
      split; [reflexivity|]. split; [|intro Hn; contradiction].
      intros _. split; [reflexivity|]. apply image_form_image. reflexivity.
    + apply Nat.eqb_neq in E. split; [reflexivity|]. split; [reflexivity|].
      split; [reflexivity|]. split; [intro Hn; contradiction | intros _; reflexivity].
Qed.

Lemma edit_product_owner_witness :
  edit_product st_listed 1 1 lamp_negative_form =
    (Ok, snd (edit_product st_listed 1 1 lamp_negative_form)) /\
  exists p, find_product st_listed 1 = Some p /\ Product.seller_id p = 1.
Proof.
  assert (H : edit_product st_listed 1 1 lamp_negative_form =
                (Ok, snd (edit_product st_listed 1 1 lamp_negative_form)))
    by (vm_compute; reflexivity).
  split; [exact H|]. exact (proj1 (edit_product_owner _ _ _ _ _ H)).
Defined.

(** ** Session ids *)

Lemma digit_char_ok (d : nat) :
  d < 10 -> is_digit (digit_char d) = true /\ digit_val (digit_char d) = Z.of_nat d /\
            is_space (digit_char d) = false.
Proof.
  intro H.
  do 10 (destruct d as [|d]; [repeat split; reflexivity|]). lia.
Qed.

Lemma run_value_snoc (l : list ascii) (c : ascii) :
  is_digit c = true -> run_value (l ++ [c]) = (run_value l * 10 + digit_val c)%Z.
Proof. intro H. unfold run_value. rewrite fold_left_app. cbn [fold_left]. rewrite H. reflexivity. Qed.

Lemma nat_digits_spec (fuel : nat) :
  forall n, n < fuel ->
  nat_digits fuel n <> [] /\
  Forall (fun c => is_digit c = true /\ is_space c = false) (nat_digits fuel n) /\
  run_value (nat_digits fuel n) = Z.of_nat n.
Proof.
  induction fuel as [|f IH]; intros n Hn; [lia|]. cbn [nat_digits].
  destruct (n <? 10) eqn:E.
  - apply Nat.ltb_lt in E. destruct (digit_char_ok n E) as [A [B C]].
    split; [discriminate|]. split; [repeat constructor; assumption|].
    unfold run_value. cbn [fold_left]. rewrite A, B. reflexivity.
  - apply Nat.ltb_ge in E.
    assert (Hd : n / 10 < f) by (pose proof (Nat.div_lt n 10 ltac:(lia) ltac:(lia)); lia).
    destruct (IH (n / 10) Hd) as [N [F V]].
    assert (Hm : n mod 10 < 10) by (apply Nat.mod_upper_bound; lia).
    destruct (digit_char_ok (n mod 10) Hm) as [A [B C]].
    split; [intro Hc; apply app_eq_nil in Hc; destruct Hc as [_ Hc]; discriminate|].
    split; [apply Forall_app; split; [exact F | repeat constructor; assumption]|].
    rewrite run_value_snoc by exact A. rewrite V, B.
    pose proof (Nat.div_mod_eq n 10) as Hdm.
    set (a := n / 10) in *. set (b := n mod 10) in *. lia.
Qed.

Lemma strip_nonspace (l : list ascii) :
  Forall (fun c => is_space c = false) l -> strip (string_of_list_ascii l) = string_of_list_ascii l.
Proof.
  intro H. unfold strip.
  assert (Hl : lstrip (string_of_list_ascii l) = string_of_list_ascii l).
  { destruct l as [|c l]; [reflexivity|]. inversion H; subst. simpl. rewrite H2. reflexivity. }
  rewrite Hl. clear Hl.
  induction l as [|c l IH]; [reflexivity|]. inversion H; subst. simpl.
  rewrite (IH H3), H2. reflexivity.
Qed.

Lemma take_run_digits (l : list ascii) :
  Forall (fun c => is_digit c = true) l -> take_run l = (l, []).
Proof.
  induction l as [|c l IH]; intro H; [reflexivity|]. inversion H; subst. simpl.
  rewrite H2. simpl. rewrite (IH H3). reflexivity.
Qed.

Lemma run_ok_digits (l : list ascii) :
  Forall (fun c => is_digit c = true) l -> run_ok true l = true.
Proof.
  induction l as [|c l IH]; intro H; [reflexivity|]. inversion H; subst. simpl.
  rewrite H2. exact (IH H3).
Qed.

Lemma py_int_digits (l : list ascii) :
  l <> [] -> Forall (fun c => is_digit c = true /\ is_space c = false) l ->
  py_int (string_of_list_ascii l) = Some (run_value l).
Proof.
  intros Hne HF.
  assert (Hd : Forall (fun c => is_digit c = true) l)
    by exact (Forall_impl _ (fun c (Hc : _ /\ _) => proj1 Hc) HF).
  assert (Hs : Forall (fun c => is_space c = false) l)
    by exact (Forall_impl _ (fun c (Hc : _ /\ _) => proj2 Hc) HF).
  unfold py_int. rewrite (strip_nonspace l Hs), list_ascii_of_string_of_list_ascii.
  destruct l as [|c l']; [contradiction|].
  inversion Hd as [|? ? Hc Hr]; subst.
  assert (Hm : Ascii.eqb c "-"%char = false).
  { destruct (Ascii.eqb c "-"%char) eqn:E; [|reflexivity].
    apply Ascii.eqb_eq in E. subst c. vm_compute in Hc. discriminate. }
  assert (Hp : Ascii.eqb c "+"%char = false).
  { destruct (Ascii.eqb c "+"%char) eqn:E; [|reflexivity].
    apply Ascii.eqb_eq in E. subst c. vm_compute in Hc. discriminate. }
  unfold take_sign. rewrite Hm, Hp. rewrite (take_run_digits _ Hd).
  unfold valid_run. simpl run_ok. rewrite Hc, (run_ok_digits _ Hr). reflexivity.
Qed.

Lemma py_int_str_nat (n : nat) : py_int (str_nat n) = Some (Z.of_nat n).
Proof.
  destruct (nat_digits_spec (S n) n (Nat.lt_succ_diag_r n)) as [N [F V]].
  unfold str_nat. rewrite (py_int_digits _ N F), V. reflexivity.
Qed.

Lemma find_user_id (l : list User.t) (u : User.t) :
  NoDup (map User.id l) -> In u l ->
  find (fun x => Z.eqb (Z.of_nat (User.id x)) (Z.of_nat (User.id u))) l = Some u.
Proof.
  induction l as [|a l IH]; [intros _ []|]. simpl. intros Hnd Hin.
  apply NoDup_cons_iff in Hnd. destruct Hnd as [Hn Hnd].
  destruct Hin as [<-|Hin]; [rewrite Z.eqb_refl; reflexivity|].
  destruct (Z.eqb (Z.of_nat (User.id a)) (Z.of_nat (User.id u))) eqn:E.
  - apply Z.eqb_eq, Nat2Z.inj in E. exfalso. apply Hn. rewrite E. apply in_map. exact Hin.
  - apply IH; assumption.
Qed.

Definition user_ids_unique (st : store) : Prop := NoDup (map User.id (users st)).

Lemma step_user_ids (gh : string -> string -> string) (st : store) (r : request) :
  user_ids_unique st -> user_ids_unique (step gh st r).
Proof.
  intro H. unfold user_ids_unique in *.
  destruct r; simpl step.
  - unfold register. handler_cases; try exact H.
    rewrite map_app. apply NoDup_snoc; [exact H | apply fresh_id_not_in].
  - unfold dashboard_post. handler_cases; try exact H. rewrite map_map.
    match goal with |- NoDup (map ?g _) =>
      replace (map g (users st)) with (map User.id (users st)); [exact H|] end.
    apply map_ext. intro x. destruct (User.id x =? uid); reflexivity.
  - destruct (add_product_frame st uid f) as [E _]. rewrite E. exact H.
  - destruct (edit_product_frame st uid pid f) as [E _]. rewrite E. exact H.
  - destruct (delete_product_frame st uid pid) as [E _]. rewrite E. exact H.
  - destruct (cart_add_frame st uid pid qty) as [E _]. rewrite E. exact H.
  - destruct (cart_update_frame st uid cid qty) as [E _]. rewrite E. exact H.
  - destruct (cart_remove_frame st uid cid) as [E _]. rewrite E. exact H.
  - destruct (checkout_frame st uid) as [E _]. rewrite E. exact H.
Qed.

(** The session round trip: Flask-Login stores [get_id()] = [str(id)] in the
    session and [load_user] parses it back with [int()]; after any sequence
    of requests (starting from a store with distinct user ids), this gives
    back exactly the user who logged in. *)
Theorem session_reload (gh : string -> string -> string) (st : store) (rs : list request)
    (u : User.t) (Hids : user_ids_unique st) (Hin : In u (users (run_requests gh st rs))) :
  load_user (run_requests gh st rs) (get_id u) = inr (Some u).
Proof.
  assert (H : user_ids_unique (run_requests gh st rs)).
  { unfold run_requests. clear Hin. revert st Hids.
    induction rs as [|r rs IH]; intros st Hids; simpl; [exact Hids|].
    apply IH. apply step_user_ids. exact Hids. }
  unfold load_user, get_id. rewrite py_int_str_nat. f_equal. apply find_user_id; assumption.
Qed.

Lemma session_reload_witness :
  user_ids_unique st_users /\
  In (nth 2 (users (run_requests identity_hash st_users
                      [RRegister "carol@example.org" "pw" "carol" "s1"])) alice)
     (users (run_requests identity_hash st_users [RRegister "carol@example.org" "pw" "carol" "s1"])) /\
  load_user (run_requests identity_hash st_users [RRegister "carol@example.org" "pw" "carol" "s1"])
    (get_id (nth 2 (users (run_requests identity_hash st_users
                             [RRegister "carol@example.org" "pw" "carol" "s1"])) alice)) =
  inr (Some (nth 2 (users (run_requests identity_hash st_users
                             [RRegister "carol@example.org" "pw" "carol" "s1"])) alice)).
Proof.
  assert (Hids : user_ids_unique st_users) by (constructor; [intros [H|[]]; discriminate | repeat constructor; intros []]).
  assert (Hin : In (nth 2 (users (run_requests identity_hash st_users
                                   [RRegister "carol@example.org" "pw" "carol" "s1"])) alice)
                   (users (run_requests identity_hash st_users
                             [RRegister "carol@example.org" "pw" "carol" "s1"])))
    by (apply nth_In; vm_compute; lia).
  split; [exact Hids|]. split; [exact Hin|].
  exact (session_reload _ _ _ _ Hids Hin).
Defined.

(** ** [init-db] *)

Lemma add_samples_frame (seller : nat) (l : list (string * string * string * float * string)) :
  forall st,
  users (fold_left (add_sample seller) l st) = users st /\
  map Product.seller_id (products (fold_left (add_sample seller) l st)) =
    map Product.seller_id (products st) ++ repeat seller (List.length l).
Proof.
  induction l as [|s l IH]; intro st; simpl; [split; [reflexivity | symmetry; apply app_nil_r]|].
  destruct (IH (add_sample seller st s)) as [U S]. rewrite U, S.
  destruct s as [[[[t d] c] p] img]. simpl. split; [reflexivity|].
  rewrite map_app, <- app_assoc. reflexivity.
Qed.

Lemma init_db_eq (gen_hash : string -> string -> string) (salt : string) (st : store) :
  exists st1,
    products st1 = products st /\ (exists d, find_user_by_email st1 DEMO_EMAIL = Some d) /\
    init_db gen_hash salt st =
      if List.length (products st1) =? 0 then
        match find_user_by_email st1 DEMO_EMAIL with
        | None => (Raise AttributeError, st1)
        | Some demo => (Ok, fold_left (add_sample (User.id demo)) samples st1)
        end
      else (Ok, st1).
Proof.
  unfold init_db. destruct (find_user_by_email st DEMO_EMAIL) as [d|] eqn:Hd.
  - exists st. split; [reflexivity|]. split; [exists d; exact Hd | reflexivity].
  - exists (set_users st (users st ++
              [User.mk (fresh_id (map User.id (users st))) DEMO_EMAIL
                 (gen_hash salt "demo123"%string) "demo"%string])).
    split; [reflexivity|]. split; [|reflexivity].
    eexists. unfold find_user_by_email in *. simpl users. rewrite find_app, Hd. reflexivity.
Qed.

Lemma init_db_post (gen_hash : string -> string -> string) (salt : string) (st : store) :
  fst (init_db gen_hash salt st) = Ok /\
  exists demo,
    find_user_by_email (snd (init_db gen_hash salt st)) DEMO_EMAIL = Some demo /\
    products (snd (init_db gen_hash salt st)) <> [] /\
    (products st = [] ->
       map Product.seller_id (products (snd (init_db gen_hash salt st))) = repeat (User.id demo) 4) /\
    (products st <> [] -> products (snd (init_db gen_hash salt st)) = products st).
Proof.
  destruct (init_db_eq gen_hash salt st) as [st1 [Hp [[d Hd] E]]]. rewrite E, Hd.
  destruct (List.length (products st1) =? 0) eqn:Hl.
  - apply Nat.eqb_eq, length_zero_iff_nil in Hl.
    destruct (add_samples_frame (User.id d) samples st1) as [U S]. rewrite Hl in S.
    split; [reflexivity|]. exists d. cbn [snd].
    split; [unfold find_user_by_email in *; rewrite U; exact Hd|].
    split; [intro Hn; rewrite Hn in S; discriminate|].
    split; [intros _; exact S|]. intro Hn. rewrite <- Hp, Hl in Hn. contradiction.
  - split; [reflexivity|]. exists d. cbn [snd]. split; [exact Hd|].
    assert (Hne : products st1 <> []) by (intro Hn; rewrite Hn in Hl; discriminate).
    split; [exact Hne|]. split; [intro Hn; rewrite <- Hp in Hn; contradiction|].
    intros _. exact Hp.
Qed.

(** [flask init-db] never fails: afterwards the demo user exists; on an
    empty product table it adds the four samples, all sold by the demo user,
    and otherwise it leaves the products as they were. *)
Theorem init_db_seeds (gen_hash : string -> string -> string) (salt : string) (st : store) :
  fst (init_db gen_hash salt st) = Ok /\
  exists demo,
    find_user_by_email (snd (init_db gen_hash salt st)) DEMO_EMAIL = Some demo /\
    (products st = [] ->
       map Product.seller_id (products (snd (init_db gen_hash salt st))) = repeat (User.id demo) 4) /\
    (products st <> [] -> products (snd (init_db gen_hash salt st)) = products st).
Proof.
  destruct (init_db_post gen_hash salt st) as [Ok' [d [Hd [_ [H1 H2]]]]].
  split; [exact Ok'|]. exists d. split; [exact Hd|]. split; [exact H1 | exact H2].
Qed.

(** Running [flask init-db] a second time, whatever salt the new hash would
    get, changes nothing. *)
Theorem init_db_idempotent (gen_hash : string -> string -> string) (salt salt' : string)
    (st : store) :
  init_db gen_hash salt' (snd (init_db gen_hash salt st)) = (Ok, snd (init_db gen_hash salt st)).
Proof.
  destruct (init_db_post gen_hash salt st) as [_ [d [Hd [Hne _]]]].
  revert Hd Hne. generalize (snd (init_db gen_hash salt st)) as S. intros S Hd Hne.
  unfold init_db. rewrite Hd. cbv beta iota zeta.
  destruct (List.length (products S) =? 0) eqn:Hl; [|reflexivity].
  apply Nat.eqb_eq, length_zero_iff_nil in Hl. contradiction.
Qed.

(** ** When the cart page crashes *)

Lemma line_amounts_none (prods : list Product.t) (items : list CartItem.t) :
  line_amounts prods items = None <->
  Exists (fun c => find (fun p => Product.id p =? CartItem.product_id c) prods = None) items.
Proof.
  induction items as [|c items IH]; simpl.
  - split; [discriminate | intro H; inversion H].
  - destruct (find (fun p => Product.id p =? CartItem.product_id c) prods) as [p|] eqn:E.
    + split.
      * intro H. right. apply IH. destruct (line_amounts prods items); [discriminate | reflexivity].
      * intro H. inversion H as [? ? H1|? ? H1]; subst; [congruence|].
        apply IH in H1. rewrite H1. reflexivity.
    + split; [intros _; left; exact E | reflexivity].
Qed.

(** The cart page raises [AttributeError] (HTTP 500) exactly when one of the
    user's cart lines refers to a product that no longer exists. *)
Theorem cart_view_crashes_iff_dangling (st : store) (uid : nat) :
  cart_view st uid = inl AttributeError <->
  Exists (fun c => find_product st (CartItem.product_id c) = None) (user_cart st uid).
Proof.
  unfold cart_view, find_product. rewrite <- line_amounts_none.
  destruct (line_amounts (products st) (user_cart st uid)); split; congruence.
Qed.

(** A seller deleting a product breaks every cart that holds it: the cart
    page of each such buyer, and their checkout, then raise
    [AttributeError] (checkout changing nothing) until the line is removed. *)
Theorem delete_breaks_buyer_cart (st st' : store) (uid pid buyer : nat)
    (Hdel : delete_product st uid pid = (Ok, st'))
    (Hline : Exists (fun c => CartItem.product_id c = pid) (user_cart st buyer)) :
  cart_view st' buyer = inl AttributeError /\ checkout st' buyer = (Raise AttributeError, st').
Proof.
  unfold delete_product in Hdel. destruct (find_product st pid) as [p|]; [|discriminate].
  destruct (negb (Product.seller_id p =? uid)); [discriminate|]. injection Hdel as <-.
  set (P := filter (fun p => negb (Product.id p =? pid)) (products st)).
  assert (Hc : user_cart (set_products st P) buyer = user_cart st buyer) by reflexivity.
  assert (Hs : line_amounts P (user_cart st buyer) = None).
  { apply line_amounts_none. eapply Exists_impl; [|exact Hline]. intros c Hc'. rewrite Hc'.
    apply find_id_filter_self. }
  split.
  - unfold cart_view. rewrite Hc. simpl products. rewrite Hs. reflexivity.
  - unfold checkout. rewrite Hc.
    pose proof (line_amounts_checkout_loop P (fresh_id (map Order.id (orders (set_products st P))))
                  (user_cart st buyer) (fresh_id (map OrderItem.id (order_items (set_products st P))))
                  zero) as L.
    rewrite Hs in L.
    destruct (user_cart st buyer) as [|c0 r] eqn:Hu; [inversion Hline|].
    simpl is_nil. cbv iota. simpl products. rewrite L. reflexivity.
Qed.

Lemma delete_breaks_buyer_cart_witness :
  delete_product st_carted 1 1 = (Ok, st_dangling) /\
  Exists (fun c => CartItem.product_id c = 1) (user_cart st_carted 2) /\
  cart_view st_dangling 2 = inl AttributeError.
Proof.
  assert (Hd : delete_product st_carted 1 1 = (Ok, st_dangling)) by (vm_compute; reflexivity).
  assert (Hl : Exists (fun c => CartItem.product_id c = 1) (user_cart st_carted 2))
    by (vm_compute; left; reflexivity).
  split; [exact Hd|]. split; [exact Hl|].
  exact (proj1 (delete_breaks_buyer_cart _ _ _ _ _ Hd Hl)).
Defined.
